(** * Mortgage default risk dashboard ([app.py])

    A shallow embedding of the Streamlit script: the sidebar values, the
    three engineered ratios, the one-row data frame handed to the
    classifier, the gauge, and the branch run when the button is pressed.

    Numbers are modelled as Python has them.  The integer widgets return
    Python ints ([Z]); the float sliders and the classifier return
    binary64 values (Rocq's primitive [float], the same IEEE 754 format
    as a Python float / numpy float64); [0.2] and [0.4] below are the
    binary64 literals of the source, and [<?] is the IEEE comparison.
    The exact rational value of a binary64 number is given by
    [float_value], which is what the statements about the mathematical
    thresholds 1/5 and 2/5 are phrased with. *)

From Stdlib Require Import ZArith QArith Qabs Lia Bool String List Floats.
Import ListNotations.

Set Warnings "-inexact-float".

Local Open Scope Z_scope.

(** ** Python values and exceptions *)

Inductive exn : Type :=
| ZeroDivisionError
| IndexError
| HostError (what : string).

Inductive result (A : Type) : Type :=
| Ok (a : A)
| Raise (e : exn).

Arguments Ok {A} a.
Arguments Raise {A} e.

(** A Python number as the script produces them: [0] in the [else]
    branches is an int, a quotient is a float. *)
Inductive number : Type :=
| PyInt (i : Z)
| PyFloat (f : float).

(** [float(i)] for an int the integer widgets of the script can deliver:
    they hold ints below 2^53 in magnitude, which convert exactly
    ([float_of_int_exact] below).  Beyond that range this is not Python's
    conversion (a Python int is unbounded, this wraps at 2^63), so every
    statement below about a converted int carries the bound. *)
Definition float_of_int (i : Z) : float :=
  match i with
  | Z0 => PrimFloat.of_uint63 (Uint63.of_Z 0)
  | Zpos _ => PrimFloat.of_uint63 (Uint63.of_Z i)
  | Zneg p => PrimFloat.opp (PrimFloat.of_uint63 (Uint63.of_Z (Zpos p)))
  end.

(** [a / b] on two ints: true division, a float, [ZeroDivisionError] when
    [b] is [0].  On operands below 2^53 in magnitude, all the widgets
    deliver, Python's result is the IEEE quotient of the exactly converted
    operands, as here ([truediv_rounds] below).  On larger operands
    Python rounds the exact quotient once and raises [OverflowError] when
    it is out of range, which this does not model: statements about a
    quotient carry the bound. *)
Definition int_truediv (a b : Z) : result float :=
  if b =? 0 then Raise ZeroDivisionError
  else Ok (PrimFloat.div (float_of_int a) (float_of_int b)).

(** What pandas stores when a number lands in a float64 column: an int
    becomes the float of the same value.  The only int the script puts in
    such a column is the 0 of a guard. *)
Definition to_float64 (v : number) : float :=
  match v with
  | PyInt i => float_of_int i
  | PyFloat f => f
  end.

(** The exact value of a binary64 number as a rational (0 for the
    infinities and NaN, which have none). *)
Definition SF2Q (x : spec_float) : Q :=
  match x with
  | S754_finite s m e =>
      let mag := match e with
                 | Z0 => Zpos m # 1
                 | Zpos k => Zpos (m * 2 ^ k) # 1
                 | Zneg k => Zpos m # 2 ^ k
                 end in
      if s then Qopp mag else mag
  | _ => 0%Q
  end.

Definition float_value (x : float) : Q := SF2Q (Prim2SF x).

(** Zero or finite: the numbers that have a value. *)
Definition SFfinite (x : spec_float) : bool :=
  match x with
  | S754_zero _ | S754_finite _ _ _ => true
  | _ => false
  end.

(** The value of a valid binary64 number in units of 2^-1074, the
    smallest positive one. *)
Definition scaled (x : spec_float) : Z :=
  match x with
  | S754_finite s m e =>
      let n := Zpos m * 2 ^ (e + 1074) in if s then - n else n
  | _ => 0
  end.

(** Not NaN, and carrying the sign [s]. *)
Definition SFsigned (s : bool) (x : spec_float) : Prop :=
  match x with
  | S754_zero s' | S754_infinity s' | S754_finite s' _ _ => s' = s
  | S754_nan => False
  end.

(** [q] is the quotient of the ints [a] and [b] up to one rounding to
    binary64: finite, and within a relative error of 2^-53 of the exact
    rational [a / b]. *)
Definition near_quotient (q : float) (a b : Z) : Prop :=
  SFfinite (Prim2SF q) = true
  /\ (Qabs (float_value q - inject_Z a / inject_Z b)
      <= Qabs (inject_Z a / inject_Z b) * (1 # 2 ^ 53))%Q.

(** [N / D] lies at location [l] above the integer [m]: on it, in the
    lower half, in the middle, or in the upper half of [m, m + 1]. *)
Definition inloc (N D m : Z) (l : location) : Prop :=
  match l with
  | loc_Exact => N = m * D
  | loc_Inexact Lt => m * D < N /\ 2 * N < (2 * m + 1) * D
  | loc_Inexact Eq => 2 * N = (2 * m + 1) * D
  | loc_Inexact Gt => (2 * m + 1) * D < 2 * N /\ N < (m + 1) * D
  end.

(** A probability: a binary64 number between 0 and 1 (so neither NaN nor
    infinite). *)
Definition is_probability (p : float) : bool :=
  (PrimFloat.leb 0 p && PrimFloat.leb p 1)%bool.

Definition number_nonneg (v : number) : bool :=
  match v with
  | PyInt i => 0 <=? i
  | PyFloat f => PrimFloat.leb 0 f
  end.

(** ** The sidebar (lines 83-99) *)

(** The values the sidebar widgets return on one run of the script. *)
Record sidebar : Type := {
  age : Z;
  income : Z;
  loan_amount : Z;
  credit_score : Z;
  months_employed : Z;
  num_credit_lines : Z;
  interest_rate : float;
  loan_term : Z;
  dti_ratio : float;
  education : string;
  employment_type : string;
  marital_status : string;
  has_mortgage : string;
  has_dependents : string;
  loan_purpose : string;
  has_cosigner : string
}.

Definition between (lo hi x : Z) : bool := (lo <=? x) && (x <=? hi).

Definition fbetween (lo hi x : float) : bool :=
  (PrimFloat.leb lo x && PrimFloat.leb x hi)%bool.

Definition one_of (choices : list string) (s : string) : bool :=
  existsb (String.eqb s) choices.

(** What the widget calls of the source allow: the bounds of each slider
    and the options of each select box.  The two [number_input] calls give
    no [min_value] or [max_value], so any int the widget can hold (below
    2^53 in magnitude) comes through, negative ones included. *)
Definition widget_range (ui : sidebar) : bool :=
  between 18 70 (age ui)
  && between (- (2 ^ 53 - 1)) (2 ^ 53 - 1) (income ui)
  && between (- (2 ^ 53 - 1)) (2 ^ 53 - 1) (loan_amount ui)
  && between 300 850 (credit_score ui)
  && between 0 480 (months_employed ui)
  && between 0 15 (num_credit_lines ui)
  && fbetween 1.0 25.0 (interest_rate ui)
  && existsb (Z.eqb (loan_term ui)) [120; 180; 240; 300; 360]
  && fbetween 0.0 1.0 (dti_ratio ui)
  && one_of ["High School"; "Bachelor"; "Master"; "PhD"]%string (education ui)
  && one_of ["Salaried"; "Self-Employed"; "Unemployed"]%string (employment_type ui)
  && one_of ["Single"; "Married"; "Divorced"]%string (marital_status ui)
  && one_of ["Yes"; "No"]%string (has_mortgage ui)
  && one_of ["Yes"; "No"]%string (has_dependents ui)
  && one_of ["Home Purchase"; "Refinance"; "Investment"]%string (loan_purpose ui)
  && one_of ["Yes"; "No"]%string (has_cosigner ui).

(** ** Feature engineering (lines 104-128) *)

Definition loan_to_income (ui : sidebar) : result number :=
  if 0 <? income ui then
    match int_truediv (loan_amount ui) (income ui) with
    | Ok q => Ok (PyFloat q)
    | Raise e => Raise e
    end
  else Ok (PyInt 0).

Definition employment_ratio (ui : sidebar) : result number :=
  if 0 <? age ui then
    match int_truediv (months_employed ui) (age ui) with
    | Ok q => Ok (PyFloat q)
    | Raise e => Raise e
    end
  else Ok (PyInt 0).

Definition credit_utilization_proxy (ui : sidebar) : result number :=
  match int_truediv (loan_amount ui) (num_credit_lines ui + 1) with
  | Ok q => Ok (PyFloat q)
  | Raise e => Raise e
  end.

(** The single row of [input_data], column by column. *)
Record row : Type := {
  Age : Z;
  Income : Z;
  LoanAmount : Z;
  CreditScore : Z;
  MonthsEmployed : Z;
  NumCreditLines : Z;
  InterestRate : float;
  LoanTerm : Z;
  DTIRatio : float;
  LoanToIncome : number;
  EmploymentRatio : number;
  CreditUtilizationProxy : number;
  Education : string;
  EmploymentType : string;
  MaritalStatus : string;
  HasMortgage : string;
  HasDependents : string;
  LoanPurpose : string;
  HasCoSigner : string
}.

Definition DataFrame : Type := list row.

(** Lines 108-128: the one-row frame, from the widget values and the three
    ratios already computed. *)
Definition make_frame (ui : sidebar) (lti er cup : number) : DataFrame :=
  [ {| Age := age ui;
       Income := income ui;
       LoanAmount := loan_amount ui;
       CreditScore := credit_score ui;
       MonthsEmployed := months_employed ui;
       NumCreditLines := num_credit_lines ui;
       InterestRate := interest_rate ui;
       LoanTerm := loan_term ui;
       DTIRatio := dti_ratio ui;
       LoanToIncome := lti;
       EmploymentRatio := er;
       CreditUtilizationProxy := cup;
       Education := education ui;
       EmploymentType := employment_type ui;
       MaritalStatus := marital_status ui;
       HasMortgage := has_mortgage ui;
       HasDependents := has_dependents ui;
       LoanPurpose := loan_purpose ui;
       HasCoSigner := has_cosigner ui |} ].

(** Lines 104-128 as a function of the widget values: the three ratios are
    evaluated in source order, then the frame is built; an exception in a
    ratio leaves no frame. *)
Definition input_data (ui : sidebar) : result DataFrame :=
  match loan_to_income ui with
  | Raise e => Raise e
  | Ok lti =>
  match employment_ratio ui with
  | Raise e => Raise e
  | Ok er =>
  match credit_utilization_proxy ui with
  | Raise e => Raise e
  | Ok cup => Ok (make_frame ui lti er cup)
  end end end.

(** The base record a row was built from: its sixteen widget columns. *)
Definition base_of (r : row) : sidebar :=
  {| age := Age r;
     income := Income r;
     loan_amount := LoanAmount r;
     credit_score := CreditScore r;
     months_employed := MonthsEmployed r;
     num_credit_lines := NumCreditLines r;
     interest_rate := InterestRate r;
     loan_term := LoanTerm r;
     dti_ratio := DTIRatio r;
     education := Education r;
     employment_type := EmploymentType r;
     marital_status := MaritalStatus r;
     has_mortgage := HasMortgage r;
     has_dependents := HasDependents r;
     loan_purpose := LoanPurpose r;
     has_cosigner := HasCoSigner r |}.

(** ** The gauge (lines 133-159) *)

(** Text whose digits come from formatting a float: [f"{x:.2%}"] is kept
    as the float it formats. *)
Inductive text : Type :=
| Plain (s : string)
| Percent2 (x : float).

(** The calls made on the axes, in order. *)
Inductive artist : Type :=
| Barh (y : Z) (width : number) (color : string)
| SetXlim (lo hi : Z)
| SetYticks (ticks : list Z)
| SetXticks (ticks : list Z)
| AxText (x : float) (y : Z) (s : text) (color : string)
| SetTitle (s : string).

Definition figure : Type := list artist.

Definition gauge_color (probability : float) : string :=
  if PrimFloat.ltb probability 0.2 then "#2ecc71"
  else if PrimFloat.ltb probability 0.4 then "#f39c12"
  else "#e74c3c".

Definition plot_gauge (probability : float) : figure :=
  let color := gauge_color probability in
  [ Barh 0 (PyInt 1) "#e0e0e0";
    Barh 0 (PyFloat probability) color;
    SetXlim 0 1;
    SetYticks [];
    SetXticks [];
    AxText probability 0 (Percent2 probability) "white";
    SetTitle "Default Risk Gauge" ].

(** ** The assessment branch (lines 164-216) *)

(** What the script puts on the page. *)
Inductive element : Type :=
| PageConfig (page_title layout : string)
| Markdown (body : string)
| SidebarHeader (s : string)
| Metric (label : string) (value : text)
| Pyplot (fig : figure)
| Subheader (s : string)
| Dataframe (table : list (string * float))
| Success (s : string)
| Warning (s : string)
| Error (s : string).

(** Lines 168-176: the label and the color of the risk card. *)
Definition risk_level (probability : float) : string * string :=
  if PrimFloat.ltb probability 0.2 then ("🟢 Low Risk", "#2ecc71")%string
  else if PrimFloat.ltb probability 0.4 then ("🟡 Moderate Risk", "#f39c12")%string
  else ("🔴 High Risk", "#e74c3c")%string.

(** Lines 208-213: the recommendation box. *)
Definition recommendation (probability : float) : element :=
  if PrimFloat.ltb probability 0.2 then
    Success "Loan can be approved under standard underwriting guidelines."
  else if PrimFloat.ltb probability 0.4 then
    Warning "Proceed with caution. Consider additional verification or adjusted pricing."
  else
    Error "High default risk detected. Recommend rejection or strong compensating factors.".

(** The risk tiers, in their ordinal order, and the tier a card label
    stands for. *)
Inductive RiskTier : Type := Low | Moderate | High.

Definition tier_rank (t : RiskTier) : Z :=
  match t with Low => 0 | Moderate => 1 | High => 2 end.

Definition tier_of_label (label : string) : option RiskTier :=
  if String.eqb label "🟢 Low Risk" then Some Low
  else if String.eqb label "🟡 Moderate Risk" then Some Moderate
  else if String.eqb label "🔴 High Risk" then Some High
  else None.

(** The color the assessment branch pairs with each tier. *)
Definition tier_color (t : RiskTier) : string :=
  match t with
  | Low => "#2ecc71"
  | Moderate => "#f39c12"
  | High => "#e74c3c"
  end.

(** The tier and the recommendation of a probability, read off the two
    cascades of the assessment branch. *)
Definition classify (probability : float) : option RiskTier * element :=
  (tier_of_label (fst (risk_level probability)), recommendation probability).

Definition risk_tier (probability : float) : option RiskTier :=
  fst (classify probability).

(** The three recommendation boxes of lines 208-213, by name. *)
Definition approve : element :=
  Success "Loan can be approved under standard underwriting guidelines.".

Definition caution : element :=
  Warning "Proceed with caution. Consider additional verification or adjusted pricing.".

Definition reject : element :=
  Error "High default risk detected. Recommend rejection or strong compensating factors.".

(** The risk card of lines 184-187 for a probability. *)
Definition risk_card (probability : float) : element :=
  Markdown ("<div class='risk-card'><h3 style='color:" ++ snd (risk_level probability)
            ++ ";'>" ++ fst (risk_level probability) ++ "</h3></div>").

(** The classifier object: all the script uses of it is [predict_proba]. *)
Record Model : Type := {
  predict_proba : DataFrame -> result (list (list float))
}.

(** [a[i]] for a non-negative index. *)
Definition getitem {A : Type} (a : list A) (i : nat) : result A :=
  match nth_error a i with
  | Some x => Ok x
  | None => Raise IndexError
  end.

(** ** The script as a state and exception monad

    The state is what one browser session holds: the resource cache of
    [st.cache_resource], which survives reruns, and the elements put on
    the page so far, which stay on the page when an exception ends the
    run. *)
Record session : Type := {
  cached_model : option Model;
  page : list element
}.

Definition script (A : Type) : Type := session -> result A * session.

Definition ret {A : Type} (a : A) : script A := fun s => (Ok a, s).

Definition bind {A B : Type} (m : script A) (k : A -> script B) : script B :=
  fun s =>
    match m s with
    | (Ok a, s') => k a s'
    | (Raise e, s') => (Raise e, s')
    end.

Definition lift {A : Type} (r : result A) : script A := fun s => (r, s).

Definition emit (e : element) : script unit :=
  fun s => (Ok tt, {| cached_model := cached_model s; page := page s ++ [e] |}).

Declare Scope script_scope.
Delimit Scope script_scope with script.
Notation "x <- m ;; k" := (bind m (fun x => k))
  (at level 61, m at next level, right associativity) : script_scope.
Notation "m ;; k" := (bind m (fun _ => k))
  (at level 61, right associativity) : script_scope.

Section App.

(** [joblib.load]: what the file system holds under a path. *)
Variable joblib_load : string -> result Model.

(** Lines 65-67: loaded on the first call, served from the cache after. *)
Definition load_model : script Model :=
  fun s =>
    match cached_model s with
    | Some m => (Ok m, s)
    | None =>
        match joblib_load "mortgage_default_model.pkl" with
        | Ok m => (Ok m, {| cached_model := Some m; page := page s |})
        | Raise e => (Raise e, s)
        end
    end.

(** Lines 164-216, run when the button was pressed.  The Value column of
    [ratio_df] mixes the two ratios with the float [dti_ratio], so pandas
    stores it as float64: the int 0 of a guard is shown as 0.0. *)
Definition assess (model : Model) (ui : sidebar) (frame : DataFrame)
    (lti er : number) : script unit :=
  (probs <- lift (predict_proba model frame) ;;
   first_row <- lift (getitem probs 0) ;;
   probability <- lift (getitem first_row 1) ;;
   let '(label, color) := risk_level probability in
   emit (Markdown "## 📊 Risk Assessment Result") ;;
   emit (Metric "Default Probability" (Percent2 probability)) ;;
   emit (Markdown ("<div class='risk-card'><h3 style='color:" ++ color
                   ++ ";'>" ++ label ++ "</h3></div>")) ;;
   emit (Pyplot (plot_gauge probability)) ;;
   emit (Markdown "---") ;;
   emit (Subheader "📈 Key Financial Ratios") ;;
   emit (Dataframe [ ("Loan-to-Income", to_float64 lti);
                     ("DTI Ratio", dti_ratio ui);
                     ("Employment Stability", to_float64 er) ]%string) ;;
   emit (Markdown "---") ;;
   emit (Subheader "💡 Decision Recommendation") ;;
   emit (recommendation probability) ;;
   emit (Markdown "---") ;;
   emit (Markdown "<center>© 2026 Mortgage Risk Analytics | Built with Streamlit</center>"))%script.

(** One run of the script top to bottom; its value is the frame it
    built.  [clicked] is what [st.button] returns on this run.  The text
    of the style sheet (lines 18-60) is abridged, and the column layout of
    lines 180-191 is left out: the elements appear in source order. *)
Definition app (ui : sidebar) (clicked : bool) : script DataFrame :=
  (emit (PageConfig "Mortgage Default Risk Dashboard" "wide") ;;
   emit (Markdown "<style>premium fintech theme</style>") ;;
   model <- load_model ;;
   emit (Markdown "<h1>🏦 Mortgage Default Risk Scoring Dashboard</h1>") ;;
   emit (Markdown "<h3 style='text-align:center;'>Real-Time Credit Risk Assessment Engine</h3>") ;;
   emit (Markdown "---") ;;
   emit (SidebarHeader "Borrower Information") ;;
   lti <- lift (loan_to_income ui) ;;
   er <- lift (employment_ratio ui) ;;
   cup <- lift (credit_utilization_proxy ui) ;;
   let frame := make_frame ui lti er cup in
   (if clicked then assess model ui frame lti er else ret tt) ;;
   ret frame)%script.

(** A rerun starts from an empty page and the cache the session holds. *)
Definition rerun (cache : option Model) (ui : sidebar) (clicked : bool)
  : result DataFrame * session :=
  app ui clicked {| cached_model := cache; page := [] |}.

End App.

(** The model the script gets on a run: the cached one, or the one
    [joblib.load] returns when the cache is empty. *)
Definition serves (joblib_load : string -> result Model)
    (cache : option Model) (model : Model) : Prop :=
  match cache with
  | Some m => m = model
  | None => joblib_load "mortgage_default_model.pkl"%string = Ok model
  end.

(** ** Declared domains and sample inputs *)

(** The declared domain of each field, as the specification's data model
    lists them: the ranges the widgets enforce and, for the two amounts,
    non-negative. *)
Definition in_declared_domain (ui : sidebar) : bool :=
  widget_range ui && (0 <=? income ui) && (0 <=? loan_amount ui).

(** The values the widgets show before the user touches them. *)
Definition defaults : sidebar :=
  {| age := 35;
     income := 80000;
     loan_amount := 200000;
     credit_score := 650;
     months_employed := 60;
     num_credit_lines := 5;
     interest_rate := 7.5;
     loan_term := 120;
     dti_ratio := 0.35;
     education := "High School";
     employment_type := "Salaried";
     marital_status := "Single";
     has_mortgage := "Yes";
     has_dependents := "Yes";
     loan_purpose := "Home Purchase";
     has_cosigner := "Yes" |}.

(** The defaults with the income field set to -1, which the
    [number_input] widget accepts. *)
Definition negative_income : sidebar :=
  {| age := 35;
     income := -1;
     loan_amount := 200000;
     credit_score := 650;
     months_employed := 60;
     num_credit_lines := 5;
     interest_rate := 7.5;
     loan_term := 120;
     dti_ratio := 0.35;
     education := "High School";
     employment_type := "Salaried";
     marital_status := "Single";
     has_mortgage := "Yes";
     has_dependents := "Yes";
     loan_purpose := "Home Purchase";
     has_cosigner := "Yes" |}.

(** A classifier that answers P(no default) = 0.85, P(default) = 0.15 for
    every record, and a file system that holds it. *)
Definition sample_model : Model :=
  {| predict_proba := fun _ => Ok [[0.85; 0.15]%float] |}.

Definition sample_disk (path : string) : result Model := Ok sample_model.

(** ** What a run leaves behind *)

(** What lines 10-81 put on the page on every run that gets past
    [load_model], before any widget value is used. *)
Definition preamble : list element :=
  [ PageConfig "Mortgage Default Risk Dashboard" "wide";
    Markdown "<style>premium fintech theme</style>";
    Markdown "<h1>🏦 Mortgage Default Risk Scoring Dashboard</h1>";
    Markdown "<h3 style='text-align:center;'>Real-Time Credit Risk Assessment Engine</h3>";
    Markdown "---";
    SidebarHeader "Borrower Information" ].

(** A step of the script that leaves the resource cache as it found it,
    whether it returns or raises. *)
Definition keeps_cache {A : Type} (m : script A) : Prop :=
  forall s, cached_model (snd (m s)) = cached_model s.

(** The ratio table of lines 197-200 for a row of the frame: its three
    columns as float64. *)
Definition ratio_table (r : row) : list (string * float) :=
  [ ("Loan-to-Income", to_float64 (LoanToIncome r));
    ("DTI Ratio", DTIRatio r);
    ("Employment Stability", to_float64 (EmploymentRatio r)) ]%string.

(** At most 0, and not NaN. *)
Definition number_nonpos (v : number) : bool :=
  match v with
  | PyInt i => i <=? 0
  | PyFloat f => PrimFloat.leb f 0
  end.

(** The defaults with a loan amount of 0, and with a loan amount of
    -200000; the [number_input] widget accepts both. *)
Definition zero_loan : sidebar :=
  {| age := 35;
     income := 80000;
     loan_amount := 0;
     credit_score := 650;
     months_employed := 60;
     num_credit_lines := 5;
     interest_rate := 7.5;
     loan_term := 120;
     dti_ratio := 0.35;
     education := "High School";
     employment_type := "Salaried";
     marital_status := "Single";
     has_mortgage := "Yes";
     has_dependents := "Yes";
     loan_purpose := "Home Purchase";
     has_cosigner := "Yes" |}.

Definition negative_loan : sidebar :=
  {| age := 35;
     income := 80000;
     loan_amount := -200000;
     credit_score := 650;
     months_employed := 60;
     num_credit_lines := 5;
     interest_rate := 7.5;
     loan_term := 120;
     dti_ratio := 0.35;
     education := "High School";
     employment_type := "Salaried";
     marital_status := "Single";
     has_mortgage := "Yes";
     has_dependents := "Yes";
     loan_purpose := "Home Purchase";
     has_cosigner := "Yes" |}.

(** A file system on which the model file is missing, a classifier that
    raises, one that returns an empty array, and one that answers the same
    P(default) as [sample_model] among other numbers. *)
Definition broken_disk (path : string) : result Model :=
  Raise (HostError "FileNotFoundError").

Definition failing_model : Model :=
  {| predict_proba := fun _ => Raise (HostError "ValueError") |}.

Definition empty_model : Model :=
  {| predict_proba := fun _ => Ok [] |}.

Definition other_model : Model :=
  {| predict_proba := fun _ => Ok [[0.5; 0.15; 0.35]%float; [0.1; 0.9]%float] |}.

(** A step of the script that only adds to the end of the page. *)
Definition appends {A : Type} (m : script A) : Prop :=
  forall s, exists tail, page (snd (m s)) = page s ++ tail.

(** * Proofs *)

(** ** Valid binary64 numbers and their values *)

Lemma digits2_pos_bounds (m : positive) :
  2 ^ (Zpos (digits2_pos m) - 1) <= Zpos m < 2 ^ Zpos (digits2_pos m).
Proof.
  assert (step : forall d : positive,
             2 ^ Zpos (Pos.succ d) = 2 * 2 ^ Zpos d
             /\ 2 ^ (Zpos (Pos.succ d) - 1) = 2 ^ Zpos d
             /\ 2 ^ Zpos d = 2 * 2 ^ (Zpos d - 1)).
  { intros d. rewrite Pos2Z.inj_succ. repeat split.
    - apply Z.pow_succ_r; lia.
    - f_equal; lia.
    - rewrite <- Z.pow_succ_r by lia. f_equal; lia. }
  induction m as [m IH | m IH | ]; cbn [digits2_pos].
  - destruct (step (digits2_pos m)) as (E1 & E2 & E3).
    rewrite E1, E2. rewrite E3 in IH at 1. lia.
  - destruct (step (digits2_pos m)) as (E1 & E2 & E3).
    rewrite E1, E2. rewrite E3 in IH at 1. lia.
  - cbn. lia.
Qed.

(** A valid binary64 mantissa and exponent. *)
Lemma bounded_inv (m : positive) (e : Z) :
  bounded prec emax m e = true ->
  -1074 <= e <= 971 /\ Zpos m < 2 ^ 53 /\ (-1074 < e -> 2 ^ 52 <= Zpos m).
Proof.
  unfold bounded, canonical_mantissa, fexp, SpecFloat.emin, prec, emax.
  intros H. apply andb_true_iff in H. destruct H as [Hc He].
  apply Z.eqb_eq in Hc. apply Z.leb_le in He.
  pose proof (digits2_pos_bounds m) as [Hlo Hhi].
  assert (Hd : Zpos (digits2_pos m) <= 53) by lia.
  repeat split; try lia.
  - apply Z.lt_le_trans with (1 := Hhi). apply Z.pow_le_mono_r; lia.
  - intros Hn. assert (Zpos (digits2_pos m) = 53) as E by lia.
    rewrite E in Hlo. exact Hlo.
Qed.

Lemma pos_pow_Z (k : positive) : Zpos (2 ^ k) = 2 ^ Zpos k.
Proof. apply Pos2Z.inj_pow. Qed.

Lemma pow2_gap (a b : Z) : 0 <= a < b -> 2 * 2 ^ a <= 2 ^ b.
Proof.
  intros H. rewrite <- Z.pow_succ_r by lia. apply Z.pow_le_mono_r; lia.
Qed.

(** Comparing a finite binary64 number with a normal positive one
    [m0 * 2^-k0] decides on which side of a rational [n/d] it lies,
    provided no binary64 number lies between [n/d] and the threshold:
    [(m0-1) * 2^-k0 < n/d <= m0 * 2^-k0]. *)
Lemma SFltb_cut (m0 k0 n d : positive) (x : spec_float) :
  SFfinite x = true ->
  valid_binary x = true ->
  2 ^ 52 < Zpos m0 < 2 ^ 53 ->
  Zpos k0 < 1074 ->
  (Zpos m0 - 1) * Zpos d < Zpos n * 2 ^ Zpos k0 <= Zpos m0 * Zpos d ->
  SFltb x (S754_finite false m0 (Zneg k0)) = true <-> (SF2Q x < Zpos n # d)%Q.
Proof.
  intros Hfin Hval Hm0 Hk0 Hcut.
  pose proof (Z.pow_pos_nonneg 2 (Zpos k0) ltac:(lia) ltac:(lia)) as Hp0.
  destruct x as [s | s | | s m e]; try discriminate.
  - cbn. unfold Qlt; cbn. split; [intros _; lia | reflexivity].
  - cbn [valid_binary] in Hval. apply bounded_inv in Hval.
    destruct Hval as (He & Hhi & Hlo).
    destruct s.
    + (* negative *)
      unfold SFltb; cbn [SFcompare SF2Q]. split; [intros _ | reflexivity].
      destruct e; unfold Qlt; cbn; lia.
    + unfold SFltb; cbn [SFcompare SF2Q].
      destruct (Z.compare_spec e (Zneg k0)) as [E | L | G].
      * subst e. change (Pos.compare_cont Eq m m0) with (Pos.compare m m0).
        unfold Qlt; cbn [Qnum Qden]. rewrite pos_pow_Z.
        destruct (Pos.compare_spec m m0) as [E | L | G].
        -- subst m. split; [discriminate | lia].
        -- split; [intros _ | reflexivity]. nia.
        -- split; [discriminate | nia].
      * split; [intros _ | reflexivity].
        destruct e as [ | k | k]; try lia.
        unfold Qlt; cbn [Qnum Qden]. rewrite pos_pow_Z.
        pose proof (pow2_gap (Zpos k0) (Zpos k) ltac:(lia)) as Hg.
        change (2 ^ 52) with 4503599627370496 in *.
        change (2 ^ 53) with 9007199254740992 in *.
        generalize dependent (2 ^ Zpos k0). generalize (2 ^ Zpos k).
        intros B A HA Hc Hg.
        assert (Zpos m * Zpos d <= 2 * ((Zpos m0 - 1) * Zpos d)) by nia.
        assert (2 * (Zpos n * A) <= Zpos n * B) by nia.
        lia.
      * split; [discriminate | ].
        specialize (Hlo ltac:(lia)).
        change (2 ^ 52) with 4503599627370496 in *.
        change (2 ^ 53) with 9007199254740992 in *.
        destruct e as [ | k | k]; unfold Qlt; cbn [Qnum Qden].
        -- pose proof (pow2_gap 0 (Zpos k0) ltac:(lia)) as Hg.
           change (2 ^ 0) with 1 in Hg.
           generalize dependent (2 ^ Zpos k0). intros A HA Hc Hg.
           assert (2 * Zpos n <= Zpos n * A) by nia.
           assert (Zpos m0 * Zpos d <= 2 * (Zpos m * Zpos d)) by nia.
           lia.
        -- pose proof (pow2_gap 0 (Zpos k0) ltac:(lia)) as Hg.
           change (2 ^ 0) with 1 in Hg. rewrite Pos2Z.inj_mul.
           generalize dependent (2 ^ Zpos k0). intros A HA Hc Hg.
           assert (2 * Zpos n <= Zpos n * A) by nia.
           assert (Zpos m0 * Zpos d <= 2 * (Zpos m * Zpos d)) by nia.
           assert (Zpos m * Zpos d <= Zpos m * Zpos (2 ^ k) * Zpos d) by nia.
           lia.
        -- rewrite pos_pow_Z.
           pose proof (pow2_gap (Zpos k) (Zpos k0) ltac:(lia)) as Hg.
           pose proof (Z.pow_pos_nonneg 2 (Zpos k) ltac:(lia) ltac:(lia)) as HB.
           generalize dependent (2 ^ Zpos k0). generalize dependent (2 ^ Zpos k).
           intros B HB A HA Hc Hg.
           assert (2 * (Zpos n * B) <= Zpos m0 * Zpos d) by nia.
           assert (Zpos m0 * Zpos d <= 2 * (Zpos m * Zpos d)) by nia.
           lia.
Qed.

Lemma SF2Q_scaled (x : spec_float) :
  valid_binary x = true -> (SF2Q x == scaled x # 2 ^ 1074)%Q.
Proof.
  destruct x as [s | s | | s m e]; intros Hval; try reflexivity.
  cbn [valid_binary] in Hval. apply bounded_inv in Hval.
  destruct Hval as (He & _ & _).
  assert (Hmag : (match e with
                  | Z0 => Zpos m # 1
                  | Zpos k => Zpos (m * 2 ^ k) # 1
                  | Zneg k => Zpos m # 2 ^ k
                  end == Zpos m * 2 ^ (e + 1074) # 2 ^ 1074)%Q).
  { destruct e as [ | k | k]; unfold Qeq; cbn [Qnum Qden]; rewrite pos_pow_Z.
    - rewrite Z.add_0_l. lia.
    - rewrite Pos2Z.inj_mul, pos_pow_Z, Z.pow_add_r by lia. lia.
    - rewrite pos_pow_Z.
      replace (2 ^ 1074) with (2 ^ (Zneg k + 1074) * 2 ^ Zpos k).
      + lia.
      + rewrite <- Z.pow_add_r by lia. f_equal. lia. }
  cbn [SF2Q scaled]. destruct s.
  - rewrite Hmag. reflexivity.
  - exact Hmag.
Qed.

Lemma scaled_lt_exp (m1 m2 : positive) (e1 e2 : Z) :
  bounded prec emax m1 e1 = true ->
  bounded prec emax m2 e2 = true ->
  e1 < e2 ->
  Zpos m1 * 2 ^ (e1 + 1074) <= Zpos m2 * 2 ^ (e2 + 1074).
Proof.
  intros H1 H2 Hlt.
  apply bounded_inv in H1. destruct H1 as (He1 & Hhi1 & _).
  apply bounded_inv in H2. destruct H2 as (He2 & _ & Hlo2).
  specialize (Hlo2 ltac:(lia)).
  pose proof (pow2_gap (e1 + 1074) (e2 + 1074) ltac:(lia)) as Hg.
  pose proof (Z.pow_pos_nonneg 2 (e1 + 1074) ltac:(lia) ltac:(lia)) as HA.
  change (2 ^ 52) with 4503599627370496 in *.
  change (2 ^ 53) with 9007199254740992 in *.
  generalize dependent (2 ^ (e2 + 1074)). generalize dependent (2 ^ (e1 + 1074)).
  intros A HA B Hg.
  assert (Zpos m1 * A <= 4503599627370496 * (2 * A)) by nia.
  assert (4503599627370496 * B <= Zpos m2 * B) by nia.
  nia.
Qed.

Lemma SFleb_scaled (x y : spec_float) :
  SFfinite x = true -> SFfinite y = true ->
  valid_binary x = true -> valid_binary y = true ->
  SFleb x y = true -> scaled x <= scaled y.
Proof.
  intros Fx Fy Vx Vy.
  destruct x as [sx | sx | | sx mx ex]; try discriminate;
  destruct y as [sy | sy | | sy my ey]; try discriminate;
  unfold SFleb; cbn [SFcompare scaled].
  - destruct sy; [discriminate | ]. intros _.
    cbn [valid_binary] in Vy. apply bounded_inv in Vy.
    pose proof (Z.pow_pos_nonneg 2 (ey + 1074) ltac:(lia) ltac:(lia)). nia.
  - destruct sx; [ | discriminate]. intros _.
    cbn [valid_binary] in Vx. apply bounded_inv in Vx.
    pose proof (Z.pow_pos_nonneg 2 (ex + 1074) ltac:(lia) ltac:(lia)). nia.
  - cbn [valid_binary] in Vx, Vy.
    pose proof (bounded_inv _ _ Vx) as (Hex & _ & _).
    pose proof (bounded_inv _ _ Vy) as (Hey & _ & _).
    pose proof (Z.pow_pos_nonneg 2 (ex + 1074) ltac:(lia) ltac:(lia)) as HA.
    pose proof (Z.pow_pos_nonneg 2 (ey + 1074) ltac:(lia) ltac:(lia)) as HB.
    change (Pos.compare_cont Eq mx my) with (Pos.compare mx my).
    destruct sx, sy; try discriminate.
    + destruct (Z.compare_spec ex ey) as [E | L | G]; try discriminate.
      * subst ey. destruct (Pos.compare_spec mx my); try discriminate; intros _; nia.
      * intros _. pose proof (scaled_lt_exp _ _ _ _ Vy Vx G). lia.
    + intros _. nia.
    + destruct (Z.compare_spec ex ey) as [E | L | G]; try discriminate.
      * subst ey. destruct (Pos.compare_spec mx my); try discriminate; intros _; nia.
      * intros _. apply (scaled_lt_exp _ _ _ _ Vx Vy L).
Qed.

Lemma SFleb_sound (x y : spec_float) :
  SFfinite x = true -> SFfinite y = true ->
  valid_binary x = true -> valid_binary y = true ->
  SFleb x y = true -> (SF2Q x <= SF2Q y)%Q.
Proof.
  intros Fx Fy Vx Vy H.
  rewrite (SF2Q_scaled x Vx), (SF2Q_scaled y Vy).
  pose proof (SFleb_scaled x y Fx Fy Vx Vy H) as Hs.
  unfold Qle; cbn [Qnum Qden].
  apply Z.mul_le_mono_nonneg_r; [lia | exact Hs].
Qed.

(** ** The two thresholds of the script *)

Lemma Prim2SF_0_2 : Prim2SF 0.2 = S754_finite false 7205759403792794 (-55).
Proof. vm_compute. reflexivity. Qed.

Lemma Prim2SF_0_4 : Prim2SF 0.4 = S754_finite false 7205759403792794 (-54).
Proof. vm_compute. reflexivity. Qed.

Lemma is_probability_finite (p : float) :
  is_probability p = true -> SFfinite (Prim2SF p) = true.
Proof.
  unfold is_probability. rewrite !leb_spec.
  replace (Prim2SF 0) with (S754_zero false) by (vm_compute; reflexivity).
  replace (Prim2SF 1) with (S754_finite false 4503599627370496 (-52))
    by (vm_compute; reflexivity).
  destruct (Prim2SF p) as [s | [ | ] | | s m e];
    unfold SFleb; cbn [SFcompare andb]; intros H;
    try reflexivity; discriminate.
Qed.

Lemma is_probability_value (p : float) :
  is_probability p = true -> (0 <= float_value p <= 1)%Q.
Proof.
  intros H. pose proof (is_probability_finite p H) as Hfin.
  unfold is_probability in H. apply andb_true_iff in H. destruct H as [H0 H1].
  rewrite leb_spec in H0, H1. unfold float_value. split.
  - change 0%Q with (SF2Q (S754_zero false)).
    replace (S754_zero false) with (Prim2SF 0) in * by (vm_compute; reflexivity).
    apply SFleb_sound; auto using Prim2SF_valid.
  - assert (E : Prim2SF 1 = S754_finite false 4503599627370496 (-52))
      by (vm_compute; reflexivity).
    assert (Q1 : (SF2Q (Prim2SF 1) == 1)%Q) by (rewrite E; vm_compute; reflexivity).
    rewrite <- Q1.
    apply SFleb_sound; auto using Prim2SF_valid.
Qed.

(** No binary64 number lies between 1/5 and the literal [0.2], so the
    comparison with the literal is the comparison with 1/5. *)
Lemma ltb_0_2_iff (p : float) :
  SFfinite (Prim2SF p) = true ->
  PrimFloat.ltb p 0.2 = true <-> (float_value p < 1 # 5)%Q.
Proof.
  intros Hfin. rewrite ltb_spec, Prim2SF_0_2. unfold float_value.
  apply (SFltb_cut 7205759403792794 55 1 5); auto using Prim2SF_valid.
  - change (2 ^ 52) with 4503599627370496. change (2 ^ 53) with 9007199254740992. lia.
  - reflexivity.
  - change (2 ^ 55) with 36028797018963968. lia.
Qed.

Lemma ltb_0_4_iff (p : float) :
  SFfinite (Prim2SF p) = true ->
  PrimFloat.ltb p 0.4 = true <-> (float_value p < 2 # 5)%Q.
Proof.
  intros Hfin. rewrite ltb_spec, Prim2SF_0_4. unfold float_value.
  apply (SFltb_cut 7205759403792794 54 2 5); auto using Prim2SF_valid.
  - change (2 ^ 52) with 4503599627370496. change (2 ^ 53) with 9007199254740992. lia.
  - reflexivity.
  - change (2 ^ 54) with 18014398509481984. lia.
Qed.

Lemma leb_value (p1 p2 : float) :
  is_probability p1 = true -> is_probability p2 = true ->
  PrimFloat.leb p1 p2 = true -> (float_value p1 <= float_value p2)%Q.
Proof.
  intros H1 H2 H. rewrite leb_spec in H.
  apply SFleb_sound; auto using Prim2SF_valid, is_probability_finite.
Qed.

(** ** Signs through rounding and division *)

Lemma iter_pos_invariant {A : Type} (P : A -> Prop) (f : A -> A) :
  (forall x, P x -> P (f x)) ->
  forall (n : positive) (x : A), P x -> P (iter_pos f n x).
Proof.
  intros Hf. induction n as [n IH | n IH | ]; intros x Hx; cbn [iter_pos]; auto.
Qed.

Lemma shr_1_nonneg (mrs : shr_record) : 0 <= shr_m mrs -> 0 <= shr_m (shr_1 mrs).
Proof.
  destruct mrs as [m r s]. cbn [shr_m]. intros Hm.
  destruct m as [ | [p | p | ] | p]; cbn [shr_1 shr_m]; lia.
Qed.

Lemma shr_fexp_nonneg (m e : Z) (l : location) :
  0 <= m -> 0 <= shr_m (fst (shr_fexp prec emax m e l)).
Proof.
  intros Hm. unfold shr_fexp, shr.
  assert (H0 : 0 <= shr_m (shr_record_of_loc m l)).
  { destruct l as [ | [ | | ]]; exact Hm. }
  destruct (fexp prec emax (Zdigits2 m + e) - e) as [ | n | n]; cbn [fst]; auto.
  apply (iter_pos_invariant (fun r => 0 <= shr_m r)); auto using shr_1_nonneg.
Qed.

Lemma round_nearest_even_nonneg (m : Z) (l : location) :
  0 <= m -> 0 <= round_nearest_even m l.
Proof.
  intros Hm. destruct l as [ | [ | | ]]; cbn [round_nearest_even]; try lia.
  destruct (Z.even m); lia.
Qed.

Lemma binary_round_aux_signed (s : bool) (mx ex : Z) (lx : location) :
  0 <= mx -> SFsigned s (binary_round_aux prec emax s mx ex lx).
Proof.
  intros Hm. unfold binary_round_aux.
  pose proof (shr_fexp_nonneg mx ex lx Hm) as H1.
  destruct (shr_fexp prec emax mx ex lx) as [mrs' e']. cbn [fst] in H1.
  pose proof (shr_fexp_nonneg _ e' loc_Exact
                (round_nearest_even_nonneg _ (loc_of_shr_record mrs') H1)) as H2.
  destruct (shr_fexp prec emax
              (round_nearest_even (shr_m mrs') (loc_of_shr_record mrs')) e' loc_Exact)
    as [mrs'' e'']. cbn [fst] in H2.
  destruct (shr_m mrs'') as [ | m | m]; try lia.
  - reflexivity.
  - destruct (e'' <=? emax - prec); reflexivity.
Qed.

Lemma SFdiv_core_nonneg (m1 m2 : positive) (e1 e2 : Z) :
  0 <= fst (fst (SFdiv_core_binary prec emax (Zpos m1) e1 (Zpos m2) e2)).
Proof.
  unfold SFdiv_core_binary.
  set (s := e1 - e2 - _).
  set (m' := match s with Z0 => Zpos m1 | Zpos _ => Z.shiftl (Zpos m1) s | Zneg _ => 0 end).
  assert (Hm' : 0 <= m').
  { subst m'. destruct s; try lia. apply Z.shiftl_nonneg. lia. }
  pose proof (Z.div_pos m' (Zpos m2) Hm' ltac:(lia)) as Hq.
  unfold Z.div in Hq.
  destruct (Z.div_eucl m' (Zpos m2)) as [q r]. exact Hq.
Qed.

(** A quotient of a non-negative by a positive number is not NaN and not
    negative. *)
Lemma SFdiv_signed (x y : spec_float) :
  SFfinite x = true -> SFsigned false x ->
  (exists m e, y = S754_finite false m e) ->
  SFsigned false (SFdiv prec emax x y).
Proof.
  intros Fx Sx (my & ey & ->).
  destruct x as [sx | sx | | sx mx ex]; try discriminate; cbn [SFsigned] in Sx; subst sx.
  - reflexivity.
  - cbn [SFdiv xorb].
    pose proof (SFdiv_core_nonneg mx my ex ey) as Hq.
    destruct (SFdiv_core_binary prec emax (Zpos mx) ex (Zpos my) ey) as [[mz ez] lz].
    apply binary_round_aux_signed. exact Hq.
Qed.

Lemma SFleb_zero_signed (x : spec_float) :
  SFsigned false x -> SFleb (S754_zero false) x = true.
Proof.
  destruct x as [s | s | | s m e]; cbn [SFsigned]; intros H; try contradiction;
    subst; reflexivity.
Qed.

(** ** Ints that convert exactly *)

Lemma digits2_pos_iter_xO (m k : positive) :
  digits2_pos (Pos.iter xO m k) = (digits2_pos m + k)%positive.
Proof.
  induction k as [ | k IH] using Pos.peano_ind.
  - cbn [Pos.iter digits2_pos]. lia.
  - rewrite Pos.iter_succ. cbn [digits2_pos]. rewrite IH. lia.
Qed.

(** Rounding a mantissa that is already canonical changes nothing. *)
Lemma binary_round_aux_canonical (s : bool) (m : positive) (e : Z) :
  bounded prec emax m e = true ->
  binary_round_aux prec emax s (Zpos m) e loc_Exact = S754_finite s m e.
Proof.
  unfold bounded, canonical_mantissa. intros H.
  apply andb_true_iff in H. destruct H as [Hc He]. apply Z.eqb_eq in Hc.
  assert (Hshr : shr_fexp prec emax (Zpos m) e loc_Exact
                 = ({| shr_m := Zpos m; shr_r := false; shr_s := false |}, e)).
  { unfold shr_fexp. cbn [Zdigits2 shr_record_of_loc]. rewrite Hc, Z.sub_diag.
    reflexivity. }
  unfold binary_round_aux. rewrite Hshr.
  cbn [shr_m loc_of_shr_record round_nearest_even]. rewrite Hshr.
  cbn [shr_m]. rewrite He. reflexivity.
Qed.

Lemma binary_round_small (s : bool) (p : positive) :
  Zpos p < 2 ^ 53 ->
  exists m e, binary_round prec emax s p 0 = S754_finite s m e.
Proof.
  intros Hp.
  pose proof (digits2_pos_bounds p) as [Hlo _].
  assert (Hd : Zpos (digits2_pos p) <= 53).
  { destruct (Z.le_gt_cases (Zpos (digits2_pos p)) 53) as [ | Hgt]; [assumption | ].
    assert (2 ^ 53 <= 2 ^ (Zpos (digits2_pos p) - 1)) by (apply Z.pow_le_mono_r; lia).
    lia. }
  unfold binary_round, shl_align.
  assert (Hf : fexp prec emax (Zpos (digits2_pos p) + 0) = Zpos (digits2_pos p) - 53).
  { unfold fexp, SpecFloat.emin, prec, emax. lia. }
  rewrite Hf.
  destruct (Zpos (digits2_pos p) - 53 - 0) as [ | k | k] eqn:Ek; try lia.
  - exists p, 0. apply binary_round_aux_canonical.
    unfold bounded, canonical_mantissa. rewrite Hf.
    apply andb_true_iff. split; [apply Z.eqb_eq; lia | reflexivity].
  - exists (Pos.iter xO p k), (Zpos (digits2_pos p) - 53).
    apply binary_round_aux_canonical.
    unfold bounded, canonical_mantissa. rewrite digits2_pos_iter_xO.
    apply andb_true_iff. split.
    + apply Z.eqb_eq. unfold fexp, SpecFloat.emin, prec, emax. lia.
    + apply Z.leb_le. unfold prec, emax. lia.
Qed.

Lemma Prim2SF_float_of_pos (p : positive) :
  Zpos p < 2 ^ 53 ->
  exists m e, Prim2SF (float_of_int (Zpos p)) = S754_finite false m e.
Proof.
  intros Hp. cbn [float_of_int]. rewrite of_uint63_spec.
  change (Uint63Axioms.to_Z (Uint63.of_Z (Zpos p)))
    with (Uint63.to_Z (Uint63.of_Z (Zpos p))).
  rewrite Uint63.of_Z_spec, Z.mod_small.
  - cbn [binary_normalize]. apply binary_round_small. exact Hp.
  - split; [lia | ].
    apply Z.lt_trans with (1 := Hp). reflexivity.
Qed.

Lemma Prim2SF_float_of_nonneg (i : Z) :
  0 <= i < 2 ^ 53 ->
  SFfinite (Prim2SF (float_of_int i)) = true
  /\ SFsigned false (Prim2SF (float_of_int i)).
Proof.
  intros Hi. destruct i as [ | p | p]; try lia.
  - split; vm_compute; reflexivity.
  - destruct (Prim2SF_float_of_pos p ltac:(lia)) as (m & e & E).
    rewrite E. split; reflexivity.
Qed.

(** The quotient of a non-negative int by a positive one, both below
    2^53, is a float that is at least 0 (so not NaN either). *)
Lemma truediv_nonneg (a b : Z) :
  0 <= a < 2 ^ 53 -> 0 < b < 2 ^ 53 ->
  PrimFloat.leb 0 (PrimFloat.div (float_of_int a) (float_of_int b)) = true.
Proof.
  intros Ha Hb.
  rewrite leb_spec, div_spec.
  replace (Prim2SF 0) with (S754_zero false) by (vm_compute; reflexivity).
  apply SFleb_zero_signed. unfold SF64div.
  destruct (Prim2SF_float_of_nonneg a Ha) as [Fa Sa].
  destruct b as [ | p | p]; try lia.
  apply SFdiv_signed; auto.
  apply Prim2SF_float_of_pos. lia.
Qed.

(** ** Negation and zero through division *)

Lemma div_zero_by_positive (b : float) :
  (exists m e, Prim2SF b = S754_finite false m e) ->
  PrimFloat.div (float_of_int 0) b = 0%float.
Proof.
  intros (m & e & Hb). apply Prim2SF_inj. rewrite div_spec, Hb.
  replace (Prim2SF (float_of_int 0)) with (S754_zero false)
    by (vm_compute; reflexivity).
  replace (Prim2SF 0) with (S754_zero false) by (vm_compute; reflexivity).
  reflexivity.
Qed.

Lemma binary_round_aux_opp (s : bool) (m e : Z) (l : location) :
  SFopp (binary_round_aux prec emax s m e l)
  = binary_round_aux prec emax (negb s) m e l.
Proof.
  unfold binary_round_aux.
  destruct (shr_fexp prec emax m e l) as [mrs' e'].
  destruct (shr_fexp prec emax _ e' loc_Exact) as [mrs'' e''].
  destruct (shr_m mrs'') as [ | p | p]; try reflexivity.
  destruct (e'' <=? emax - prec); reflexivity.
Qed.

(** IEEE division commutes with negating the dividend. *)
Lemma SFdiv_opp_l (x y : spec_float) :
  SFdiv prec emax (SFopp x) y = SFopp (SFdiv prec emax x y).
Proof.
  destruct x as [sx | sx | | sx mx ex], y as [sy | sy | | sy my ey];
    cbn [SFopp SFdiv]; rewrite ?negb_xorb_l; try reflexivity.
  destruct (SFdiv_core_binary prec emax (Zpos mx) ex (Zpos my) ey) as [[mz ez] lz].
  rewrite binary_round_aux_opp, negb_xorb_l. reflexivity.
Qed.

Lemma div_opp_l (a b : float) :
  PrimFloat.div (PrimFloat.opp a) b = PrimFloat.opp (PrimFloat.div a b).
Proof.
  apply Prim2SF_inj. rewrite div_spec, !opp_spec, div_spec. apply SFdiv_opp_l.
Qed.

(** ** Correct rounding of the quotient *)

Lemma digits2_pos_of_range (p : positive) (d : Z) :
  2 ^ (d - 1) <= Zpos p < 2 ^ d -> 1 <= d -> Zpos (digits2_pos p) = d.
Proof.
  intros [Hlo Hhi] Hd.
  pose proof (digits2_pos_bounds p) as [Dlo Dhi].
  destruct (Z.lt_trichotomy (Zpos (digits2_pos p)) d) as [L | [E | G]].
  - assert (2 ^ Zpos (digits2_pos p) <= 2 ^ (d - 1))
      by (apply Z.pow_le_mono_r; lia).
    lia.
  - exact E.
  - assert (2 ^ d <= 2 ^ (Zpos (digits2_pos p) - 1))
      by (apply Z.pow_le_mono_r; lia).
    lia.
Qed.

Lemma iter_xO_value (p k : positive) :
  Zpos (Pos.iter xO p k) = Zpos p * 2 ^ Zpos k.
Proof.
  induction k as [ | k IH] using Pos.peano_ind.
  - cbn [Pos.iter]. rewrite Pos2Z.inj_xO. change (2 ^ 1) with 2. lia.
  - rewrite Pos.iter_succ, Pos2Z.inj_xO, IH, Pos2Z.inj_succ, Z.pow_succ_r by lia.
    lia.
Qed.

(** A positive int below 2^53 converts to a normal float with the same
    value: mantissa [i * 2^k] of 53 digits, exponent [-k]. *)
Lemma Prim2SF_float_of_pos_exact (p : positive) :
  Zpos p < 2 ^ 53 ->
  exists (m : positive) (k : Z),
    Prim2SF (float_of_int (Zpos p)) = S754_finite false m (- k)
    /\ 0 <= k <= 52
    /\ Zpos m = Zpos p * 2 ^ k
    /\ 2 ^ 52 <= Zpos m < 2 ^ 53.
Proof.
  intros Hp. cbn [float_of_int]. rewrite of_uint63_spec.
  change (Uint63Axioms.to_Z (Uint63.of_Z (Zpos p)))
    with (Uint63.to_Z (Uint63.of_Z (Zpos p))).
  rewrite Uint63.of_Z_spec, Z.mod_small
    by (split; [lia | apply Z.lt_trans with (1 := Hp); reflexivity]).
  cbn [binary_normalize].
  pose proof (digits2_pos_bounds p) as [Hlo Hhi].
  assert (Hd : Zpos (digits2_pos p) <= 53).
  { destruct (Z.le_gt_cases (Zpos (digits2_pos p)) 53) as [ | Hgt]; [assumption | ].
    assert (2 ^ 53 <= 2 ^ (Zpos (digits2_pos p) - 1)) by (apply Z.pow_le_mono_r; lia).
    lia. }
  unfold binary_round, shl_align.
  assert (Hf : fexp prec emax (Zpos (digits2_pos p) + 0) = Zpos (digits2_pos p) - 53).
  { unfold fexp, SpecFloat.emin, prec, emax. lia. }
  rewrite Hf.
  destruct (Zpos (digits2_pos p) - 53 - 0) as [ | k | k] eqn:Ek; try lia.
  - assert (E53 : Zpos (digits2_pos p) = 53) by lia.
    exists p, 0. rewrite E53 in Hlo, Hhi. split; [ | split; [lia | split; [ | ]]].
    + change (- 0) with 0. apply binary_round_aux_canonical.
      unfold bounded, canonical_mantissa. rewrite Hf.
      apply andb_true_iff. split; [apply Z.eqb_eq; lia | reflexivity].
    + change (2 ^ 0) with 1. lia.
    + change (53 - 1) with 52 in Hlo. lia.
  - assert (Ek' : Zpos k = 53 - Zpos (digits2_pos p)) by lia.
    exists (Pos.iter xO p k), (Zpos k).
    split; [ | split; [lia | split]].
    + replace (- Zpos k) with (Zpos (digits2_pos p) - 53) by lia.
      apply binary_round_aux_canonical.
      unfold bounded, canonical_mantissa. rewrite digits2_pos_iter_xO.
      apply andb_true_iff. split.
      * apply Z.eqb_eq. unfold fexp, SpecFloat.emin, prec, emax. lia.
      * apply Z.leb_le. unfold prec, emax. lia.
    + apply iter_xO_value.
    + rewrite iter_xO_value.
      assert (P1 : 2 ^ 52 = 2 ^ (Zpos (digits2_pos p) - 1) * 2 ^ Zpos k).
      { rewrite <- Z.pow_add_r by lia. f_equal. lia. }
      assert (P2 : 2 ^ 53 = 2 ^ Zpos (digits2_pos p) * 2 ^ Zpos k).
      { rewrite <- Z.pow_add_r by lia. f_equal. lia. }
      rewrite P1, P2.
      pose proof (Z.pow_pos_nonneg 2 (Zpos k) ltac:(lia) ltac:(lia)).
      split.
      * apply Z.mul_le_mono_nonneg_r; lia.
      * apply Z.mul_lt_mono_pos_r; lia.
Qed.

(** The value of an int the widgets can hold survives the conversion. *)
Lemma float_of_int_exact (i : Z) :
  - 2 ^ 53 < i < 2 ^ 53 ->
  SFfinite (Prim2SF (float_of_int i)) = true
  /\ (float_value (float_of_int i) == inject_Z i)%Q.
Proof.
  assert (Pos : forall p : positive, Zpos p < 2 ^ 53 ->
            SFfinite (Prim2SF (float_of_int (Zpos p))) = true
            /\ (SF2Q (Prim2SF (float_of_int (Zpos p))) == inject_Z (Zpos p))%Q).
  { intros p Hp.
    destruct (Prim2SF_float_of_pos_exact p Hp) as (m & k & E & Hk & Hm & _).
    rewrite E. split; [reflexivity | ].
    cbn [SF2Q]. unfold inject_Z, Qeq.
    destruct k as [ | k | k]; cbn [Z.opp Qnum Qden]; rewrite ?pos_pow_Z; lia. }
  intros Hi. destruct i as [ | p | p].
  - split; vm_compute; reflexivity.
  - apply Pos. lia.
  - unfold float_value. cbn [float_of_int]. rewrite opp_spec.
    destruct (Prim2SF_float_of_pos_exact p ltac:(lia)) as (m & k & E & Hk & Hm & _).
    cbn [float_of_int] in E. rewrite E. cbn [SFopp negb SFfinite SF2Q].
    split; [reflexivity | ]. unfold inject_Z, Qeq, Qopp.
    destruct k as [ | k | k]; cbn [Z.opp Qnum Qden]; rewrite ?pos_pow_Z; lia.
Qed.

Lemma loc_of_shr_record_of_loc (m : Z) (l : location) :
  loc_of_shr_record (shr_record_of_loc m l) = l.
Proof. destruct l as [ | [ | | ]]; reflexivity. Qed.

Lemma shr_m_record_of_loc (m : Z) (l : location) :
  shr_m (shr_record_of_loc m l) = m.
Proof. destruct l as [ | [ | | ]]; reflexivity. Qed.

(** The remainder of a division places the quotient. *)
Lemma new_location_inloc (q r d : Z) :
  0 <= r < d ->
  inloc (q * d + r) d q (new_location d r).
Proof.
  intros Hr. unfold new_location, new_location_even, new_location_odd.
  destruct (Z.even d) eqn:Ev.
  - destruct (Z.eqb_spec r 0) as [-> | Hnz]; cbn [inloc]; [lia | ].
    destruct (Z.compare_spec (2 * r) d); cbn [inloc]; lia.
  - destruct (Z.eqb_spec r 0) as [-> | Hnz]; cbn [inloc]; [lia | ].
    assert (Hodd : d <> 2 * r).
    { intros E. rewrite E, Z.even_mul in Ev. discriminate Ev. }
    destruct (Z.compare_spec (2 * r + 1) d); cbn [inloc]; lia.
Qed.

(** One shift to the right halves the mantissa and keeps the place. *)
Lemma shr_1_inloc (N D m : Z) (l : location) :
  0 < D -> 0 <= m -> inloc N D m l ->
  inloc N (2 * D) (shr_m (shr_1 (shr_record_of_loc m l)))
        (loc_of_shr_record (shr_1 (shr_record_of_loc m l)))
  /\ shr_m (shr_1 (shr_record_of_loc m l)) = m / 2.
Proof.
  intros HD Hm H.
  assert (Hx : forall p : positive, Zpos p~0 / 2 = Zpos p).
  { intros p. rewrite Pos2Z.inj_xO. rewrite Z.mul_comm. apply Z.div_mul. lia. }
  assert (Hy : forall p : positive, Zpos p~1 / 2 = Zpos p).
  { intros p. rewrite Pos2Z.inj_xI. symmetry.
    apply (Z.div_unique (2 * Zpos p + 1) 2 (Zpos p) 1); lia. }
  destruct m as [ | [p | p | ] | p]; try lia;
    destruct l as [ | [ | | ]];
    cbn [shr_record_of_loc shr_1 orb shr_m loc_of_shr_record inloc] in *;
    rewrite ?Hx, ?Hy;
    try pose proof (Pos2Z.inj_xI p); try pose proof (Pos2Z.inj_xO p);
    (split; [nia | reflexivity]).
Qed.

Lemma round_nearest_even_inloc (N D m : Z) (l : location) :
  0 < D -> inloc N D m l ->
  m <= round_nearest_even m l <= m + 1
  /\ 2 * Z.abs (round_nearest_even m l * D - N) <= D.
Proof.
  intros HD H. destruct l as [ | [ | | ]]; cbn [inloc round_nearest_even] in *.
  - split; [lia | ]. subst N. rewrite Z.sub_diag. cbn. lia.
  - destruct (Z.even m); split; lia.
  - split; lia.
  - split; lia.
Qed.

Lemma shr_fexp_53 (m : positive) (e : Z) (l : location) :
  Zpos (digits2_pos m) = 53 -> -1074 <= e ->
  shr_fexp prec emax (Zpos m) e l = (shr_record_of_loc (Zpos m) l, e).
Proof.
  intros Hd He. unfold shr_fexp. cbn [Zdigits2]. rewrite Hd.
  replace (fexp prec emax (53 + e) - e) with 0
    by (unfold fexp, SpecFloat.emin, prec, emax; lia).
  reflexivity.
Qed.

Lemma shr_fexp_54 (m : positive) (e : Z) (l : location) :
  Zpos (digits2_pos m) = 54 -> -1075 <= e ->
  shr_fexp prec emax (Zpos m) e l = (shr_1 (shr_record_of_loc (Zpos m) l), e + 1).
Proof.
  intros Hd He. unfold shr_fexp. cbn [Zdigits2]. rewrite Hd.
  replace (fexp prec emax (54 + e) - e) with 1
    by (unfold fexp, SpecFloat.emin, prec, emax; lia).
  reflexivity.
Qed.

Lemma inloc_lower (N D m : Z) (l : location) :
  0 < D -> inloc N D m l -> m * D <= N.
Proof.
  intros HD H. destruct l as [ | [ | | ]]; cbn [inloc] in H; lia.
Qed.

(** Rounding a 53-digit mantissa with its location to nearest even, and
    renormalizing when the mantissa overflows to 2^53. *)
Lemma round_finish (s : bool) (m e N D : Z) (l : location) :
  0 < D -> inloc N D m l ->
  2 ^ 52 <= m < 2 ^ 53 -> -1074 <= e <= 960 ->
  exists (mf : positive) (t : Z),
    (let '(mrs, e') := shr_fexp prec emax (round_nearest_even m l) e loc_Exact in
     match shr_m mrs with
     | Z0 => S754_zero s
     | Zpos p => if e' <=? emax - prec then S754_finite s p e' else S754_infinity s
     | Zneg _ => S754_nan
     end) = S754_finite s mf (e + t)
    /\ 0 <= t <= 1
    /\ 2 ^ 53 * Z.abs (Zpos mf * 2 ^ t * D - N) <= N.
Proof.
  intros HD H Hm He.
  destruct (round_nearest_even_inloc N D m l HD H) as [Hr Herr].
  pose proof (inloc_lower N D m l HD H) as Hlow.
  change (2 ^ 52) with 4503599627370496 in *.
  change (2 ^ 53) with 9007199254740992 in *.
  assert (HN : 4503599627370496 * D <= N) by nia.
  set (m1 := round_nearest_even m l) in *.
  destruct (Z.eq_dec m1 9007199254740992) as [E | NE].
  - rewrite E in *. exists 4503599627370496%positive, 1.
    rewrite (shr_fexp_54 9007199254740992 e loc_Exact) by (reflexivity || lia).
    cbn [shr_record_of_loc shr_1 shr_m orb].
    replace (e + 1 <=? emax - prec) with true
      by (symmetry; apply Z.leb_le; unfold emax, prec; lia).
    split; [reflexivity | split; [lia | ]].
    change (2 ^ 1) with 2.
    replace (4503599627370496 * 2 * D) with (9007199254740992 * D) by lia.
    lia.
  - destruct m1 as [ | p | p] eqn:Em1; try lia.
    exists p, 0.
    assert (Hd : Zpos (digits2_pos p) = 53).
    { apply digits2_pos_of_range; [ | lia].
      change (2 ^ (53 - 1)) with 4503599627370496.
      change (2 ^ 53) with 9007199254740992. lia. }
    rewrite (shr_fexp_53 p e loc_Exact Hd) by lia.
    cbn [shr_record_of_loc shr_m].
    replace (e <=? emax - prec) with true
      by (symmetry; apply Z.leb_le; unfold emax, prec; lia).
    rewrite Z.add_0_r. split; [reflexivity | split; [lia | ]].
    change (2 ^ 0) with 1. rewrite Z.mul_1_r. lia.
Qed.

(** [binary_round_aux] on a quotient of 53 or 54 digits with its location:
    the result is finite and within a relative error of 2^-53 of
    [N / D * 2^e]. *)
Lemma binary_round_aux_error (s : bool) (q : positive) (e N D : Z) (l : location) :
  0 < D -> inloc N D (Zpos q) l ->
  2 ^ 52 <= Zpos q < 2 ^ 54 -> -1000 <= e <= 900 ->
  exists (mf : positive) (t : Z),
    binary_round_aux prec emax s (Zpos q) e l = S754_finite s mf (e + t)
    /\ 0 <= t <= 2
    /\ 2 ^ 53 * Z.abs (Zpos mf * 2 ^ t * D - N) <= N.
Proof.
  intros HD H Hq He. unfold binary_round_aux.
  destruct (Z_lt_le_dec (Zpos q) (2 ^ 53)) as [Small | Big].
  - assert (Hd : Zpos (digits2_pos q) = 53).
    { apply digits2_pos_of_range; [ | lia]. change (53 - 1) with 52. lia. }
    rewrite (shr_fexp_53 q e l Hd) by lia.
    rewrite shr_m_record_of_loc, loc_of_shr_record_of_loc.
    destruct (round_finish s (Zpos q) e N D l HD H ltac:(lia) ltac:(lia))
      as (mf & t & E & Ht & Herr).
    exists mf, t. split; [exact E | split; [lia | exact Herr]].
  - assert (Hd : Zpos (digits2_pos q) = 54).
    { apply digits2_pos_of_range; [ | lia]. change (54 - 1) with 53. lia. }
    rewrite (shr_fexp_54 q e l Hd) by lia.
    destruct (shr_1_inloc N D (Zpos q) l HD ltac:(lia) H) as [H' Hhalf].
    set (mrs := shr_1 (shr_record_of_loc (Zpos q) l)) in *.
    assert (Hm : 2 ^ 52 <= shr_m mrs < 2 ^ 53).
    { rewrite Hhalf.
      change (2 ^ 52) with 4503599627370496. change (2 ^ 53) with 9007199254740992 in *.
      change (2 ^ 54) with 18014398509481984 in *.
      split.
      - apply Z.div_le_lower_bound; lia.
      - apply Z.div_lt_upper_bound; lia. }
    destruct (round_finish s (shr_m mrs) (e + 1) N (2 * D) (loc_of_shr_record mrs)
                ltac:(lia) H' Hm ltac:(lia))
      as (mf & t & E & Ht & Herr).
    exists mf, (1 + t). split; [ | split; [lia | ]].
    + rewrite E. f_equal. lia.
    + rewrite Z.pow_add_r by lia. change (2 ^ 1) with 2.
      replace (Zpos mf * (2 * 2 ^ t) * D) with (Zpos mf * 2 ^ t * (2 * D)) by lia.
      exact Herr.
Qed.

Lemma div_eucl_div_mod (a b : Z) : Z.div_eucl a b = (a / b, a mod b).
Proof. unfold Z.div, Z.modulo. destruct (Z.div_eucl a b). reflexivity. Qed.

(** The division core on two normal mantissas: the quotient of the
    dividend shifted by 53 bits, with the place of the remainder. *)
Lemma SFdiv_core_normal (ma mb : positive) (ka kb : Z) :
  2 ^ 52 <= Zpos ma < 2 ^ 53 -> 2 ^ 52 <= Zpos mb < 2 ^ 53 ->
  0 <= ka <= 52 -> 0 <= kb <= 52 ->
  SFdiv_core_binary prec emax (Zpos ma) (- ka) (Zpos mb) (- kb)
  = (Zpos ma * 2 ^ 53 / Zpos mb, kb - ka - 53,
     new_location (Zpos mb) ((Zpos ma * 2 ^ 53) mod Zpos mb)).
Proof.
  intros Ha Hb Hka Hkb.
  assert (Da : Zpos (digits2_pos ma) = 53)
    by (apply digits2_pos_of_range; [change (53 - 1) with 52 | ]; lia).
  assert (Db : Zpos (digits2_pos mb) = 53)
    by (apply digits2_pos_of_range; [change (53 - 1) with 52 | ]; lia).
  unfold SFdiv_core_binary. cbn [Zdigits2]. rewrite Da, Db.
  replace (Z.min (fexp prec emax (53 + - ka - (53 + - kb))) (- ka - - kb))
    with (kb - ka - 53)
    by (unfold fexp, SpecFloat.emin, prec, emax; lia).
  replace (- ka - - kb - (kb - ka - 53)) with 53 by lia.
  rewrite Z.shiftl_mul_pow2 by lia.
  rewrite div_eucl_div_mod. reflexivity.
Qed.

(** IEEE division of two normal floats of exponents between -52 and 0:
    the result is finite, has the product of the signs and is within a
    relative error of 2^-53 of the exact quotient. *)
Lemma SFdiv_normal_error (sa sb : bool) (ma mb : positive) (ka kb : Z) :
  2 ^ 52 <= Zpos ma < 2 ^ 53 -> 2 ^ 52 <= Zpos mb < 2 ^ 53 ->
  0 <= ka <= 52 -> 0 <= kb <= 52 ->
  exists (mf : positive) (t : Z),
    SFdiv prec emax (S754_finite sa ma (- ka)) (S754_finite sb mb (- kb))
    = S754_finite (xorb sa sb) mf (kb - ka - 53 + t)
    /\ 0 <= t <= 2
    /\ 2 ^ 53 * Z.abs (Zpos mf * 2 ^ t * Zpos mb - Zpos ma * 2 ^ 53)
       <= Zpos ma * 2 ^ 53.
Proof.
  intros Ha Hb Hka Hkb. cbn [SFdiv].
  rewrite (SFdiv_core_normal ma mb ka kb Ha Hb Hka Hkb).
  set (N := Zpos ma * 2 ^ 53).
  pose proof (Z.div_mod N (Zpos mb) ltac:(lia)) as HN.
  pose proof (Z.mod_pos_bound N (Zpos mb) ltac:(lia)) as HR.
  assert (HQ : 2 ^ 52 <= N / Zpos mb < 2 ^ 54).
  { subst N.
    change (2 ^ 52) with 4503599627370496 in *.
    change (2 ^ 53) with 9007199254740992 in *.
    change (2 ^ 54) with 18014398509481984.
    split.
    - apply Z.div_le_lower_bound; nia.
    - apply Z.div_lt_upper_bound; nia. }
  destruct (N / Zpos mb) as [ | q | q] eqn:EQ;
    try (change (2 ^ 52) with 4503599627370496 in HQ; lia).
  apply binary_round_aux_error; try lia.
  rewrite HN at 1. rewrite (Z.mul_comm (Zpos mb)).
  apply new_location_inloc. exact HR.
Qed.

(** The quotient of two positive ints below 2^53, in units of 2^-1074. *)
Lemma truediv_pos_scaled (a b : positive) :
  Zpos a < 2 ^ 53 -> Zpos b < 2 ^ 53 ->
  exists (mf : positive) (ef : Z),
    Prim2SF (PrimFloat.div (float_of_int (Zpos a)) (float_of_int (Zpos b)))
    = S754_finite false mf ef
    /\ 2 ^ 53 * Z.abs (scaled (S754_finite false mf ef) * Zpos b
                       - Zpos a * 2 ^ 1074)
       <= Zpos a * 2 ^ 1074.
Proof.
  intros Ha Hb.
  destruct (Prim2SF_float_of_pos_exact a Ha) as (ma & ka & Ea & Hka & Va & Ra).
  destruct (Prim2SF_float_of_pos_exact b Hb) as (mb & kb & Eb & Hkb & Vb & Rb).
  rewrite div_spec, Ea, Eb. unfold SF64div.
  destruct (SFdiv_normal_error false false ma mb ka kb Ra Rb Hka Hkb)
    as (mf & t & E & Ht & Herr).
  cbn [xorb] in E. rewrite E. exists mf, (kb - ka - 53 + t).
  split; [reflexivity | ]. cbn [scaled].
  replace (kb - ka - 53 + t + 1074) with (t + (kb - ka + 1021)) by lia.
  rewrite Z.pow_add_r by lia.
  assert (Hw : 2 ^ (kb - ka + 1021) * 2 ^ ka * 2 ^ 53 = 2 ^ kb * 2 ^ 1074).
  { rewrite <- !Z.pow_add_r by lia. f_equal. lia. }
  pose proof (Z.pow_pos_nonneg 2 (kb - ka + 1021) ltac:(lia) ltac:(lia)) as Pw.
  pose proof (Z.pow_pos_nonneg 2 ka ltac:(lia) ltac:(lia)) as Pu.
  pose proof (Z.pow_pos_nonneg 2 kb ltac:(lia) ltac:(lia)) as Pv.
  pose proof (Z.pow_pos_nonneg 2 t ltac:(lia) ltac:(lia)) as Pt.
  pose proof (Z.pow_pos_nonneg 2 1074 ltac:(lia) ltac:(lia)) as PP.
  pose proof (Z.pow_pos_nonneg 2 53 ltac:(lia) ltac:(lia)) as P53.
  rewrite Va, Vb in Herr.
  set (w := 2 ^ (kb - ka + 1021)) in *. clearbody w.
  set (u := 2 ^ ka) in *. clearbody u.
  set (v := 2 ^ kb) in *. clearbody v.
  set (T := 2 ^ t) in *. clearbody T.
  set (P := 2 ^ 1074) in *. clearbody P.
  set (c := 2 ^ 53) in *. clearbody c.
  set (X := Zpos mf * (T * w) * Zpos b - Zpos a * P).
  set (Y := Zpos mf * T * (Zpos b * v) - Zpos a * u * c) in *.
  assert (K : v * X = w * Y).
  { subst X Y. replace (v * (Zpos mf * (T * w) * Zpos b - Zpos a * P))
      with (w * (Zpos mf * T * (Zpos b * v)) - Zpos a * (v * P)) by ring.
    rewrite <- Hw. ring. }
  assert (K2 : v * (c * Z.abs X) = w * (c * Z.abs Y)).
  { replace (v * (c * Z.abs X)) with (c * (Z.abs v * Z.abs X))
      by (rewrite (Z.abs_eq v) by lia; ring).
    rewrite <- Z.abs_mul, K, Z.abs_mul, (Z.abs_eq w) by lia. ring. }
  assert (K3 : w * (c * Z.abs Y) <= w * (Zpos a * u * c))
    by (apply Z.mul_le_mono_nonneg_l; lia).
  assert (K4 : w * (Zpos a * u * c) = v * (Zpos a * P)).
  { replace (w * (Zpos a * u * c)) with (Zpos a * (w * u * c)) by ring.
    rewrite Hw. ring. }
  apply (Z.mul_le_mono_pos_l _ _ v Pv). lia.
Qed.

(** From units of 2^-1074 to rationals. *)
Lemma Q_error_of_scaled (S a : Z) (b : positive) :
  2 ^ 53 * Z.abs (S * Zpos b - a * 2 ^ 1074) <= Z.abs a * 2 ^ 1074 ->
  (Qabs ((S # 2 ^ 1074) - (a # b)) <= Qabs (a # b) * (1 # 2 ^ 53))%Q.
Proof.
  intros H. unfold Qle, Qabs, Qminus, Qplus, Qopp, Qmult. cbn [Qnum Qden].
  rewrite !Pos2Z.inj_mul, !pos_pow_Z.
  pose proof (Z.pow_pos_nonneg 2 1074 ltac:(lia) ltac:(lia)) as PP.
  pose proof (Z.pow_pos_nonneg 2 53 ltac:(lia) ltac:(lia)) as P53.
  set (P := 2 ^ 1074) in *. clearbody P.
  set (c := 2 ^ 53) in *. clearbody c.
  replace (S * Zpos b + - a * P) with (S * Zpos b - a * P) by ring.
  set (X := Z.abs (S * Zpos b - a * P)) in *.
  replace (X * (Zpos b * c)) with (Zpos b * (c * X)) by ring.
  replace (Z.abs a * 1 * (P * Zpos b)) with (Zpos b * (Z.abs a * P)) by ring.
  apply Z.mul_le_mono_nonneg_l; lia.
Qed.

(** Python's [a / b] on ints below 2^53 in magnitude, [b] positive: the
    operands convert exactly and the IEEE quotient is finite and within a
    relative error of 2^-53 of the exact quotient [a / b]: it is the exact
    quotient rounded to binary64. *)
Lemma truediv_rounds (a b : Z) :
  - 2 ^ 53 < a < 2 ^ 53 -> 0 < b < 2 ^ 53 ->
  SFfinite (Prim2SF (PrimFloat.div (float_of_int a) (float_of_int b))) = true
  /\ (Qabs (float_value (PrimFloat.div (float_of_int a) (float_of_int b))
            - inject_Z a / inject_Z b)
      <= Qabs (inject_Z a / inject_Z b) * (1 # 2 ^ 53))%Q.
Proof.
  intros Ha Hb. destruct b as [ | pb | pb]; try lia.
  unfold float_value.
  destruct a as [ | pa | pa].
  - rewrite div_zero_by_positive by (apply Prim2SF_float_of_pos; lia).
    replace (Prim2SF 0) with (S754_zero false) by (vm_compute; reflexivity).
    split; [reflexivity | ]. cbn [SF2Q].
    assert (Z0 : (inject_Z 0 / inject_Z (Zpos pb) == 0)%Q)
      by (unfold Qdiv; apply Qmult_0_l).
    rewrite Z0. vm_compute. discriminate.
  - destruct (truediv_pos_scaled pa pb ltac:(lia) ltac:(lia)) as (mf & ef & E & Herr).
    pose proof (Prim2SF_valid
                  (PrimFloat.div (float_of_int (Zpos pa)) (float_of_int (Zpos pb))))
      as V.
    rewrite E in *. split; [reflexivity | ].
    rewrite (SF2Q_scaled _ V), <- Qmake_Qdiv.
    apply Q_error_of_scaled. cbn [Z.abs]. exact Herr.
  - change (float_of_int (Zneg pa)) with (PrimFloat.opp (float_of_int (Zpos pa))).
    rewrite div_opp_l.
    destruct (truediv_pos_scaled pa pb ltac:(lia) ltac:(lia)) as (mf & ef & E & Herr).
    pose proof (Prim2SF_valid
                  (PrimFloat.opp
                     (PrimFloat.div (float_of_int (Zpos pa)) (float_of_int (Zpos pb)))))
      as V.
    rewrite opp_spec, E in *. cbn [SFopp negb] in *. split; [reflexivity | ].
    rewrite (SF2Q_scaled _ V), <- Qmake_Qdiv.
    apply Q_error_of_scaled. cbn [Z.abs scaled] in *.
    replace (- (Zpos mf * 2 ^ (ef + 1074)) * Zpos pb - Zneg pa * 2 ^ 1074)
      with (- (Zpos mf * 2 ^ (ef + 1074) * Zpos pb - Zpos pa * 2 ^ 1074))
      by (rewrite <- (Pos2Z.opp_pos pa); ring).
    rewrite Z.abs_opp. exact Herr.
Qed.

(** The same, as the statements below use it. *)
Lemma truediv_near_quotient (a b : Z) :
  - 2 ^ 53 < a < 2 ^ 53 -> 0 < b < 2 ^ 53 ->
  near_quotient (PrimFloat.div (float_of_int a) (float_of_int b)) a b.
Proof. intros Ha Hb. exact (truediv_rounds a b Ha Hb). Qed.

(** ** What the widgets deliver *)

Lemma between_inv (lo hi x : Z) : between lo hi x = true -> lo <= x <= hi.
Proof.
  unfold between. intros H. apply andb_true_iff in H. destruct H as [H1 H2].
  apply Z.leb_le in H1. apply Z.leb_le in H2. lia.
Qed.

Lemma widget_range_ints (ui : sidebar) :
  widget_range ui = true ->
  18 <= age ui <= 70
  /\ - (2 ^ 53 - 1) <= income ui <= 2 ^ 53 - 1
  /\ - (2 ^ 53 - 1) <= loan_amount ui <= 2 ^ 53 - 1
  /\ 0 <= months_employed ui <= 480
  /\ 0 <= num_credit_lines ui <= 15.
Proof.
  unfold widget_range. intros H.
  repeat (apply andb_true_iff in H; destruct H as [H ?]).
  repeat match goal with
         | B : between _ _ _ = true |- _ => apply between_inv in B
         end.
  repeat split; lia.
Qed.

(** ** The tiering cascades *)

Lemma classify_cases (p : float) :
  classify p =
    if PrimFloat.ltb p 0.2 then (Some Low, approve)
    else if PrimFloat.ltb p 0.4 then (Some Moderate, caution)
    else (Some High, reject).
Proof.
  unfold classify, risk_level, recommendation.
  destruct (PrimFloat.ltb p 0.2); [reflexivity | ].
  destruct (PrimFloat.ltb p 0.4); reflexivity.
Qed.

Lemma classify_low (p : float) :
  SFfinite (Prim2SF p) = true -> (float_value p < 1 # 5)%Q ->
  classify p = (Some Low, approve).
Proof.
  intros Hfin Hlt. rewrite classify_cases.
  apply (ltb_0_2_iff p Hfin) in Hlt. rewrite Hlt. reflexivity.
Qed.

Lemma classify_moderate (p : float) :
  SFfinite (Prim2SF p) = true ->
  (1 # 5 <= float_value p)%Q -> (float_value p < 2 # 5)%Q ->
  classify p = (Some Moderate, caution).
Proof.
  intros Hfin Hge Hlt. rewrite classify_cases.
  destruct (PrimFloat.ltb p 0.2) eqn:E2.
  - apply (ltb_0_2_iff p Hfin) in E2. apply Qlt_not_le in E2. contradiction.
  - apply (ltb_0_4_iff p Hfin) in Hlt. rewrite Hlt. reflexivity.
Qed.

Lemma classify_high (p : float) :
  SFfinite (Prim2SF p) = true -> (2 # 5 <= float_value p)%Q ->
  classify p = (Some High, reject).
Proof.
  intros Hfin Hge. rewrite classify_cases.
  destruct (PrimFloat.ltb p 0.2) eqn:E2.
  - apply (ltb_0_2_iff p Hfin) in E2.
    exfalso. apply (Qlt_not_le _ _ E2).
    apply Qle_trans with (2 := Hge). discriminate.
  - destruct (PrimFloat.ltb p 0.4) eqn:E4; [ | reflexivity].
    apply (ltb_0_4_iff p Hfin) in E4. apply Qlt_not_le in E4. contradiction.
Qed.

(** The tier of a probability depends on its value only, through the two
    cuts 1/5 and 2/5. *)
Lemma risk_tier_cases (p : float) :
  SFfinite (Prim2SF p) = true ->
  ((float_value p < 1 # 5)%Q /\ risk_tier p = Some Low)
  \/ ((1 # 5 <= float_value p)%Q /\ (float_value p < 2 # 5)%Q
      /\ risk_tier p = Some Moderate)
  \/ ((2 # 5 <= float_value p)%Q /\ risk_tier p = Some High).
Proof.
  intros Hfin. unfold risk_tier.
  destruct (Qlt_le_dec (float_value p) (1 # 5)) as [L2 | G2].
  - left. rewrite (classify_low p Hfin L2). auto.
  - destruct (Qlt_le_dec (float_value p) (2 # 5)) as [L4 | G4].
    + right; left. rewrite (classify_moderate p Hfin G2 L4). auto.
    + right; right. rewrite (classify_high p Hfin G4). auto.
Qed.

Lemma tier_color_injective (t t' : RiskTier) :
  tier_color t = tier_color t' -> t = t'.
Proof. destruct t, t'; intros H; try reflexivity; discriminate H. Qed.

(** ** The three ratios *)

Lemma loan_to_income_nonpos (ui : sidebar) :
  income ui <= 0 -> loan_to_income ui = Ok (PyInt 0).
Proof.
  intros H. unfold loan_to_income.
  destruct (Z.ltb_spec 0 (income ui)); [lia | reflexivity].
Qed.

Lemma loan_to_income_pos (ui : sidebar) :
  0 < income ui ->
  loan_to_income ui
  = Ok (PyFloat (PrimFloat.div (float_of_int (loan_amount ui))
                               (float_of_int (income ui)))).
Proof.
  intros H. unfold loan_to_income, int_truediv.
  destruct (Z.ltb_spec 0 (income ui)); [ | lia].
  destruct (Z.eqb_spec (income ui) 0); [lia | reflexivity].
Qed.

Lemma employment_ratio_nonpos (ui : sidebar) :
  age ui <= 0 -> employment_ratio ui = Ok (PyInt 0).
Proof.
  intros H. unfold employment_ratio.
  destruct (Z.ltb_spec 0 (age ui)); [lia | reflexivity].
Qed.

Lemma employment_ratio_pos (ui : sidebar) :
  0 < age ui ->
  employment_ratio ui
  = Ok (PyFloat (PrimFloat.div (float_of_int (months_employed ui))
                               (float_of_int (age ui)))).
Proof.
  intros H. unfold employment_ratio, int_truediv.
  destruct (Z.ltb_spec 0 (age ui)); [ | lia].
  destruct (Z.eqb_spec (age ui) 0); [lia | reflexivity].
Qed.

Lemma credit_utilization_proxy_eq (ui : sidebar) :
  num_credit_lines ui + 1 <> 0 ->
  credit_utilization_proxy ui
  = Ok (PyFloat (PrimFloat.div (float_of_int (loan_amount ui))
                               (float_of_int (num_credit_lines ui + 1)))).
Proof.
  intros H. unfold credit_utilization_proxy, int_truediv.
  destruct (Z.eqb_spec (num_credit_lines ui + 1) 0); [contradiction | reflexivity].
Qed.

Lemma loan_to_income_Ok (ui : sidebar) :
  exists lti, loan_to_income ui = Ok lti /\ (income ui <= 0 -> lti = PyInt 0).
Proof.
  destruct (Z_lt_le_dec 0 (income ui)) as [P | N].
  - eexists. split; [apply (loan_to_income_pos ui P) | lia].
  - eexists. split; [apply (loan_to_income_nonpos ui N) | reflexivity].
Qed.

Lemma employment_ratio_Ok (ui : sidebar) :
  exists er, employment_ratio ui = Ok er /\ (age ui <= 0 -> er = PyInt 0).
Proof.
  destruct (Z_lt_le_dec 0 (age ui)) as [P | N].
  - eexists. split; [apply (employment_ratio_pos ui P) | lia].
  - eexists. split; [apply (employment_ratio_nonpos ui N) | reflexivity].
Qed.

(** ** The frame *)

Lemma input_data_inv (ui : sidebar) (frame : DataFrame) :
  input_data ui = Ok frame ->
  exists lti er cup,
    loan_to_income ui = Ok lti /\ employment_ratio ui = Ok er
    /\ credit_utilization_proxy ui = Ok cup
    /\ frame = make_frame ui lti er cup.
Proof.
  unfold input_data.
  destruct (loan_to_income ui) as [lti | ]; [ | discriminate].
  destruct (employment_ratio ui) as [er | ]; [ | discriminate].
  destruct (credit_utilization_proxy ui) as [cup | ]; [ | discriminate].
  intros H. injection H as <-. exists lti, er, cup. auto.
Qed.

(** With a denominator [num_credit_lines + 1] other than 0 the frame is
    always built. *)
Lemma input_data_total (ui : sidebar) :
  num_credit_lines ui + 1 <> 0 ->
  exists lti er cup,
    input_data ui = Ok (make_frame ui lti er cup)
    /\ (income ui <= 0 -> lti = PyInt 0)
    /\ (age ui <= 0 -> er = PyInt 0).
Proof.
  intros Hn.
  destruct (loan_to_income_Ok ui) as (lti & E1 & G1).
  destruct (employment_ratio_Ok ui) as (er & E2 & G2).
  exists lti, er. eexists. unfold input_data.
  rewrite E1, E2, (credit_utilization_proxy_eq ui Hn). auto.
Qed.

Lemma base_of_make_frame (ui : sidebar) (lti er cup : number) (r : row) :
  In r (make_frame ui lti er cup) -> base_of r = ui.
Proof.
  intros [<- | []]. destruct ui. reflexivity.
Qed.

(** ** Running the script *)

Lemma bind_Ok_inv {A B : Type} (m : script A) (k : A -> script B)
    (s : session) (b : B) :
  fst (bind m k s) = Ok b ->
  exists a s', m s = (Ok a, s') /\ fst (k a s') = Ok b.
Proof.
  unfold bind. destruct (m s) as [[a | e] s']; cbn [fst].
  - intros H. exists a, s'. auto.
  - discriminate.
Qed.

Lemma lift_Ok_inv {A : Type} (r : result A) (s s' : session) (a : A) :
  lift r s = (Ok a, s') -> r = Ok a.
Proof. unfold lift. intros H. injection H as -> _. reflexivity. Qed.

Section Runs.

Variable joblib_load : string -> result Model.

(** A run that ends normally has built the frame [input_data] gives,
    whatever the session held and whether or not the button was pressed. *)
Lemma rerun_frame (cache : option Model) (ui : sidebar) (clicked : bool)
    (frame : DataFrame) :
  fst (rerun joblib_load cache ui clicked) = Ok frame ->
  input_data ui = Ok frame.
Proof.
  unfold rerun, app. intros H.
  repeat (apply bind_Ok_inv in H; destruct H as (? & ? & ? & H)).
  repeat match goal with
         | E : lift _ _ = (Ok _, _) |- _ => apply lift_Ok_inv in E
         end.
  unfold ret in H. cbn [fst] in H. injection H as <-.
  unfold input_data.
  repeat match goal with E : _ = Ok _ |- _ => rewrite E; clear E end.
  reflexivity.
Qed.

(** The page of a run on which the button was not pressed. *)
Lemma rerun_idle (cache : option Model) (model : Model) (ui : sidebar)
    (frame : DataFrame) :
  serves joblib_load cache model ->
  input_data ui = Ok frame ->
  rerun joblib_load cache ui false
  = (Ok frame,
     {| cached_model := Some model;
        page := [ PageConfig "Mortgage Default Risk Dashboard" "wide";
                  Markdown "<style>premium fintech theme</style>";
                  Markdown "<h1>🏦 Mortgage Default Risk Scoring Dashboard</h1>";
                  Markdown "<h3 style='text-align:center;'>Real-Time Credit Risk Assessment Engine</h3>";
                  Markdown "---";
                  SidebarHeader "Borrower Information" ] |}).
Proof.
  intros Hm Hf.
  destruct (input_data_inv ui frame Hf) as (lti & er & cup & E1 & E2 & E3 & ->).
  unfold rerun, app, bind, emit, lift, load_model, ret.
  cbn [cached_model page app_nil_l].
  destruct cache as [m | ]; cbn [serves] in Hm.
  - subst m. rewrite E1, E2, E3. reflexivity.
  - rewrite Hm, E1, E2, E3. reflexivity.
Qed.

(** The page of a run on which the button was pressed and the classifier
    answered with a row of at least two numbers. *)
Lemma rerun_assess (cache : option Model) (model : Model) (ui : sidebar)
    (frame : DataFrame) (p0 p1 : float) (more : list float)
    (rest : list (list float)) :
  serves joblib_load cache model ->
  input_data ui = Ok frame ->
  predict_proba model frame = Ok ((p0 :: p1 :: more) :: rest) ->
  exists lti er,
    loan_to_income ui = Ok lti /\ employment_ratio ui = Ok er
    /\ rerun joblib_load cache ui true
       = (Ok frame,
          {| cached_model := Some model;
             page := [ PageConfig "Mortgage Default Risk Dashboard" "wide";
                       Markdown "<style>premium fintech theme</style>";
                       Markdown "<h1>🏦 Mortgage Default Risk Scoring Dashboard</h1>";
                       Markdown "<h3 style='text-align:center;'>Real-Time Credit Risk Assessment Engine</h3>";
                       Markdown "---";
                       SidebarHeader "Borrower Information";
                       Markdown "## 📊 Risk Assessment Result";
                       Metric "Default Probability" (Percent2 p1);
                       risk_card p1;
                       Pyplot (plot_gauge p1);
                       Markdown "---";
                       Subheader "📈 Key Financial Ratios";
                       Dataframe [ ("Loan-to-Income", to_float64 lti);
                                   ("DTI Ratio", dti_ratio ui);
                                   ("Employment Stability", to_float64 er) ]%string;
                       Markdown "---";
                       Subheader "💡 Decision Recommendation";
                       recommendation p1;
                       Markdown "---";
                       Markdown "<center>© 2026 Mortgage Risk Analytics | Built with Streamlit</center>" ] |}).
Proof.
  intros Hm Hf Hp.
  destruct (input_data_inv ui frame Hf) as (lti & er & cup & E1 & E2 & E3 & ->).
  exists lti, er. split; [exact E1 | split; [exact E2 | ]].
  unfold rerun, app, assess, bind, emit, lift, load_model, ret, risk_card.
  cbn [cached_model page app_nil_l].
  destruct cache as [m | ]; cbn [serves] in Hm.
  - subst m. rewrite E1, E2, E3, Hp. cbn [getitem nth_error].
    destruct (risk_level p1) as [label color]. reflexivity.
  - rewrite Hm, E1, E2, E3, Hp. cbn [getitem nth_error].
    destruct (risk_level p1) as [label color]. reflexivity.
Qed.

End Runs.

(** * The claims *)

(** C1: for every probability [p] in [0,1] the tiering picks one of three
    bands: a value below 1/5 gives tier Low and the approval box, a value
    of at least 1/5 and below 2/5 gives tier Moderate and the caution box,
    a value of 2/5 or more gives tier High and the rejection box; the
    literals [0.2] and [0.4] themselves fall in Moderate and High. *)
Theorem risk_tiering_bands (p : float) :
  is_probability p = true ->
  ((float_value p < 1 # 5)%Q ->
   classify p
   = (Some Low,
      Success "Loan can be approved under standard underwriting guidelines."))
  /\ ((1 # 5 <= float_value p)%Q -> (float_value p < 2 # 5)%Q ->
      classify p
      = (Some Moderate,
         Warning "Proceed with caution. Consider additional verification or adjusted pricing."))
  /\ ((2 # 5 <= float_value p)%Q ->
      classify p
      = (Some High,
         Error "High default risk detected. Recommend rejection or strong compensating factors."))
  /\ fst (classify 0.2) = Some Moderate
  /\ fst (classify 0.4) = Some High.
Proof.
  intros Hp. pose proof (is_probability_finite p Hp) as Hfin.
  split; [ | split; [ | split; [ | split]]].
  - apply classify_low; assumption.
  - apply classify_moderate; assumption.
  - apply classify_high; assumption.
  - vm_compute. reflexivity.
  - vm_compute. reflexivity.
Qed.

Lemma risk_tiering_bands_witness :
  is_probability 0.15 = true
  /\ classify 0.15
     = (Some Low,
        Success "Loan can be approved under standard underwriting guidelines.").
Proof.
  split; [reflexivity | ].
  apply (risk_tiering_bands 0.15 eq_refl). vm_compute. reflexivity.
Defined.

(** C2: an income of 0 or less gives loanToIncome 0 and no division error;
    a positive income gives the quotient loanAmount / income (for the ints
    the widgets hold, below 2^53 in magnitude): the float quotient of the
    two exactly converted ints, which is finite and is the exact quotient
    up to one rounding to binary64; income 80000 with loanAmount 200000
    gives 2.5, which is the exact quotient. *)
Theorem loan_to_income_guard (ui : sidebar) :
  (income ui <= 0 -> loan_to_income ui = Ok (PyInt 0))
  /\ (0 < income ui < 2 ^ 53 -> - 2 ^ 53 < loan_amount ui < 2 ^ 53 ->
      exists q,
        loan_to_income ui = Ok (PyFloat q)
        /\ q = PrimFloat.div (float_of_int (loan_amount ui))
                             (float_of_int (income ui))
        /\ (float_value (float_of_int (loan_amount ui))
            == inject_Z (loan_amount ui))%Q
        /\ (float_value (float_of_int (income ui)) == inject_Z (income ui))%Q
        /\ near_quotient q (loan_amount ui) (income ui))
  /\ (income ui = 80000 -> loan_amount ui = 200000 ->
      loan_to_income ui = Ok (PyFloat 2.5))
  /\ (float_value 2.5 == 200000 # 80000)%Q.
Proof.
  split; [ | split; [ | split]].
  - apply loan_to_income_nonpos.
  - intros Hi Hl. eexists.
    split; [apply loan_to_income_pos; lia | ].
    split; [reflexivity | ].
    split; [apply float_of_int_exact; lia | ].
    split; [apply float_of_int_exact; lia | ].
    apply truediv_near_quotient; lia.
  - intros Hi Hl. rewrite loan_to_income_pos by lia. rewrite Hi, Hl.
    vm_compute. reflexivity.
  - vm_compute. reflexivity.
Qed.

Lemma loan_to_income_guard_witness :
  (income negative_income <= 0
   /\ loan_to_income negative_income = Ok (PyInt 0))
  /\ (0 < income defaults < 2 ^ 53
      /\ - 2 ^ 53 < loan_amount defaults < 2 ^ 53
      /\ exists q,
           loan_to_income defaults = Ok (PyFloat q)
           /\ near_quotient q (loan_amount defaults) (income defaults)).
Proof.
  assert (N : income negative_income <= 0) by (vm_compute; discriminate).
  assert (P : 0 < income defaults < 2 ^ 53) by (split; reflexivity).
  assert (L : - 2 ^ 53 < loan_amount defaults < 2 ^ 53) by (split; reflexivity).
  split; [split; [exact N | ] | split; [exact P | split; [exact L | ]]].
  - exact (proj1 (loan_to_income_guard negative_income) N).
  - destruct (proj1 (proj2 (loan_to_income_guard defaults)) P L)
      as (q & E & _ & _ & _ & H).
    exists q. split; [exact E | exact H].
Defined.

(** C3: an age of 0 or less gives employmentRatio 0; a positive age gives
    the quotient monthsEmployed / age (for the ints the widgets hold,
    below 2^53 in magnitude): the float quotient of the two exactly
    converted ints, which is finite and is the exact quotient up to one
    rounding to binary64; age 35 with 60 months gives the float 60/35,
    printed 1.7142857142857142, which is within 2^-53 of the rational
    60/35 and is 1.714286 to six decimals. *)
Theorem employment_ratio_guard (ui : sidebar) :
  (age ui <= 0 -> employment_ratio ui = Ok (PyInt 0))
  /\ (0 < age ui < 2 ^ 53 -> - 2 ^ 53 < months_employed ui < 2 ^ 53 ->
      exists q,
        employment_ratio ui = Ok (PyFloat q)
        /\ q = PrimFloat.div (float_of_int (months_employed ui))
                             (float_of_int (age ui))
        /\ (float_value (float_of_int (months_employed ui))
            == inject_Z (months_employed ui))%Q
        /\ (float_value (float_of_int (age ui)) == inject_Z (age ui))%Q
        /\ near_quotient q (months_employed ui) (age ui))
  /\ (age ui = 35 -> months_employed ui = 60 ->
      employment_ratio ui = Ok (PyFloat 1.7142857142857142))
  /\ (Qabs (float_value 1.7142857142857142 - (60 # 35)) <= 1 # 2 ^ 53)%Q
  /\ (Qabs (float_value 1.7142857142857142 - (1714286 # 1000000))
      < 5 # 10000000)%Q.
Proof.
  split; [ | split; [ | split; [ | split]]].
  - apply employment_ratio_nonpos.
  - intros Ha Hm. eexists.
    split; [apply employment_ratio_pos; lia | ].
    split; [reflexivity | ].
    split; [apply float_of_int_exact; lia | ].
    split; [apply float_of_int_exact; lia | ].
    apply truediv_near_quotient; lia.
  - intros Ha Hm. rewrite employment_ratio_pos by lia. rewrite Ha, Hm.
    vm_compute. reflexivity.
  - vm_compute. discriminate.
  - vm_compute. reflexivity.
Qed.

Lemma employment_ratio_guard_witness :
  0 < age defaults < 2 ^ 53
  /\ - 2 ^ 53 < months_employed defaults < 2 ^ 53
  /\ exists q,
       employment_ratio defaults = Ok (PyFloat q)
       /\ near_quotient q (months_employed defaults) (age defaults).
Proof.
  assert (P : 0 < age defaults < 2 ^ 53) by (split; reflexivity).
  assert (M : - 2 ^ 53 < months_employed defaults < 2 ^ 53) by (split; reflexivity).
  split; [exact P | split; [exact M | ]].
  destruct (proj1 (proj2 (employment_ratio_guard defaults)) P M)
    as (q & E & _ & _ & _ & H).
  exists q. split; [exact E | exact H].
Defined.

(** C4: for every loanAmount and every number of credit lines of 0 or more
    (ints the widgets hold, below 2^53 in magnitude) the denominator
    numCreditLines + 1 is not 0, neither as an int nor once converted to
    float, no [ZeroDivisionError] is raised, and the proxy is the quotient
    loanAmount / (numCreditLines + 1): finite, and the exact quotient up
    to one rounding to binary64; 200000 with 5 lines gives the float
    200000/6, printed 33333.333333333336, which is 33333.33 to two
    decimals. *)
Theorem credit_utilization_proxy_total (ui : sidebar) :
  0 <= num_credit_lines ui < 2 ^ 53 - 1 ->
  - 2 ^ 53 < loan_amount ui < 2 ^ 53 ->
  num_credit_lines ui + 1 <> 0
  /\ (float_value (float_of_int (num_credit_lines ui + 1))
      == inject_Z (num_credit_lines ui + 1))%Q
  /\ ~ (float_value (float_of_int (num_credit_lines ui + 1)) == 0)%Q
  /\ credit_utilization_proxy ui <> Raise ZeroDivisionError
  /\ (exists q,
        credit_utilization_proxy ui = Ok (PyFloat q)
        /\ q = PrimFloat.div (float_of_int (loan_amount ui))
                             (float_of_int (num_credit_lines ui + 1))
        /\ near_quotient q (loan_amount ui) (num_credit_lines ui + 1))
  /\ (loan_amount ui = 200000 -> num_credit_lines ui = 5 ->
      credit_utilization_proxy ui = Ok (PyFloat 33333.333333333336))
  /\ (Qabs (float_value 33333.333333333336 - (200000 # 6)) <= 1 # 2 ^ 38)%Q
  /\ (Qabs (float_value 33333.333333333336 - (3333333 # 100)) < 5 # 1000)%Q.
Proof.
  intros Hn Hl.
  assert (Hd : num_credit_lines ui + 1 <> 0) by lia.
  pose proof (credit_utilization_proxy_eq ui Hd) as E.
  destruct (float_of_int_exact (num_credit_lines ui + 1) ltac:(lia)) as [_ V].
  split; [exact Hd | split; [exact V | split; [ | split; [ | split; [ | split; [ | split]]]]]].
  - rewrite V. unfold Qeq, inject_Z. cbn [Qnum Qden]. lia.
  - rewrite E. discriminate.
  - eexists. split; [exact E | split; [reflexivity | ]].
    apply truediv_near_quotient; lia.
  - intros Hl' Hc. rewrite E, Hl', Hc. vm_compute. reflexivity.
  - vm_compute. discriminate.
  - vm_compute. reflexivity.
Qed.

Lemma credit_utilization_proxy_total_witness :
  0 <= num_credit_lines defaults < 2 ^ 53 - 1
  /\ - 2 ^ 53 < loan_amount defaults < 2 ^ 53
  /\ credit_utilization_proxy defaults = Ok (PyFloat 33333.333333333336).
Proof.
  assert (H : 0 <= num_credit_lines defaults < 2 ^ 53 - 1)
    by (split; [vm_compute; discriminate | reflexivity]).
  assert (L : - 2 ^ 53 < loan_amount defaults < 2 ^ 53) by (split; reflexivity).
  split; [exact H | split; [exact L | ]].
  apply (credit_utilization_proxy_total defaults H L); reflexivity.
Defined.

(** C5: for every probability the color [plot_gauge] gives its bar is the
    color the assessment branch gives the risk card, which is the color
    of the tier the branch chose; distinct tiers have distinct colors, so
    the gauge color and the tier determine each other. *)
Theorem gauge_color_follows_tier (p : float) :
  gauge_color p = snd (risk_level p)
  /\ (exists t, risk_tier p = Some t
                /\ gauge_color p = tier_color t
                /\ In (Barh 0 (PyFloat p) (tier_color t)) (plot_gauge p))
  /\ (forall t t', tier_color t = tier_color t' -> t = t').
Proof.
  split; [ | split].
  - unfold gauge_color, risk_level.
    destruct (PrimFloat.ltb p 0.2); [reflexivity | ].
    destruct (PrimFloat.ltb p 0.4); reflexivity.
  - unfold risk_tier, plot_gauge, gauge_color. rewrite classify_cases.
    destruct (PrimFloat.ltb p 0.2);
      [ | destruct (PrimFloat.ltb p 0.4)];
      eexists; (split; [reflexivity | split; [reflexivity | ]]);
      right; left; reflexivity.
  - exact tier_color_injective.
Qed.

(** C6, as the code has it: no record is rejected.  The two guards
    replace a ratio by 0 (income of 0 or less, age of 0 or less) and
    nothing else is replaced: for every record the sidebar delivers, one
    with a negative income or loan amount included, feature derivation
    runs and builds the frame; the sixteen base fields enter it unchanged;
    loanToIncome is 0 when the income guard fires and otherwise, like
    employmentRatio and creditUtilizationProxy always, the quotient of the
    unmodified field values, exact up to one rounding to binary64 (so a
    negative loan amount gives a negative ratio, not 0); and the run
    completes, also through the assessment when the classifier
    answers. *)
Theorem out_of_domain_input_is_assessed
    (joblib_load : string -> result Model) (cache : option Model)
    (model : Model) (ui : sidebar) :
  (income ui <= 0 -> loan_to_income ui = Ok (PyInt 0))
  /\ (age ui <= 0 -> employment_ratio ui = Ok (PyInt 0))
  /\ (widget_range ui = true ->
      serves joblib_load cache model ->
      exists lti er cup,
        input_data ui = Ok (make_frame ui lti (PyFloat er) (PyFloat cup))
        /\ (forall r, In r (make_frame ui lti (PyFloat er) (PyFloat cup)) ->
                      base_of r = ui)
        /\ lti = (if 0 <? income ui
                  then PyFloat (PrimFloat.div (float_of_int (loan_amount ui))
                                              (float_of_int (income ui)))
                  else PyInt 0)
        /\ (0 < income ui ->
            near_quotient (to_float64 lti) (loan_amount ui) (income ui))
        /\ er = PrimFloat.div (float_of_int (months_employed ui))
                              (float_of_int (age ui))
        /\ near_quotient er (months_employed ui) (age ui)
        /\ cup = PrimFloat.div (float_of_int (loan_amount ui))
                               (float_of_int (num_credit_lines ui + 1))
        /\ near_quotient cup (loan_amount ui) (num_credit_lines ui + 1)
        /\ fst (rerun joblib_load cache ui false)
           = Ok (make_frame ui lti (PyFloat er) (PyFloat cup))
        /\ (forall p0 p1 more rest,
              predict_proba model (make_frame ui lti (PyFloat er) (PyFloat cup))
              = Ok ((p0 :: p1 :: more) :: rest) ->
              fst (rerun joblib_load cache ui true)
              = Ok (make_frame ui lti (PyFloat er) (PyFloat cup)))).
Proof.
  split; [apply loan_to_income_nonpos | split; [apply employment_ratio_nonpos | ]].
  intros W Hm.
  destruct (widget_range_ints ui W) as (Ha & Hi & Hl & Hmo & Hn).
  change (2 ^ 53) with 9007199254740992 in *.
  assert (B : forall x, - (9007199254740992 - 1) <= x <= 9007199254740992 - 1 ->
                        - 2 ^ 53 < x < 2 ^ 53)
    by (intros x Hx; change (2 ^ 53) with 9007199254740992; lia).
  assert (E2 : employment_ratio ui
               = Ok (PyFloat (PrimFloat.div (float_of_int (months_employed ui))
                                            (float_of_int (age ui)))))
    by (apply employment_ratio_pos; lia).
  assert (E3 : credit_utilization_proxy ui
               = Ok (PyFloat (PrimFloat.div (float_of_int (loan_amount ui))
                                (float_of_int (num_credit_lines ui + 1)))))
    by (apply credit_utilization_proxy_eq; lia).
  assert (E1 : loan_to_income ui
               = Ok (if 0 <? income ui
                     then PyFloat (PrimFloat.div (float_of_int (loan_amount ui))
                                                 (float_of_int (income ui)))
                     else PyInt 0)).
  { destruct (Z.ltb_spec 0 (income ui)).
    - apply loan_to_income_pos. assumption.
    - apply loan_to_income_nonpos. assumption. }
  assert (E : input_data ui
              = Ok (make_frame ui
                      (if 0 <? income ui
                       then PyFloat (PrimFloat.div (float_of_int (loan_amount ui))
                                                   (float_of_int (income ui)))
                       else PyInt 0)
                      (PyFloat (PrimFloat.div (float_of_int (months_employed ui))
                                              (float_of_int (age ui))))
                      (PyFloat (PrimFloat.div (float_of_int (loan_amount ui))
                                  (float_of_int (num_credit_lines ui + 1))))))
    by (unfold input_data; rewrite E1, E2, E3; reflexivity).
  do 3 eexists.
  split; [exact E | ].
  split; [apply base_of_make_frame | ].
  split; [reflexivity | ].
  split.
  { intros Hp. destruct (Z.ltb_spec 0 (income ui)); [ | lia].
    cbn [to_float64]. apply truediv_near_quotient; [apply B; lia | ].
    change (2 ^ 53) with 9007199254740992. lia. }
  split; [reflexivity | ].
  split.
  { apply truediv_near_quotient; change (2 ^ 53) with 9007199254740992; lia. }
  split; [reflexivity | ].
  split.
  { apply truediv_near_quotient; [apply B; lia | ].
    change (2 ^ 53) with 9007199254740992. lia. }
  split.
  - rewrite (rerun_idle joblib_load cache model ui _ Hm E). reflexivity.
  - intros p0 p1 more rest Hp.
    destruct (rerun_assess joblib_load cache model ui _ p0 p1 more rest Hm E Hp)
      as (lti' & er' & _ & _ & R).
    rewrite R. reflexivity.
Qed.

Lemma out_of_domain_input_is_assessed_witness :
  (widget_range negative_income = true
   /\ serves sample_disk None sample_model
   /\ input_data negative_income
      = Ok (make_frame negative_income (PyInt 0)
              (PyFloat 1.7142857142857142) (PyFloat 33333.333333333336)))
  /\ (widget_range negative_loan = true
      /\ input_data negative_loan
         = Ok (make_frame negative_loan (PyFloat (-2.5))
                 (PyFloat 1.7142857142857142) (PyFloat (-33333.333333333336)))).
Proof.
  assert (W1 : widget_range negative_income = true) by (vm_compute; reflexivity).
  assert (W2 : widget_range negative_loan = true) by (vm_compute; reflexivity).
  split; [split; [exact W1 | split; [reflexivity | ]] | split; [exact W2 | ]].
  - destruct (proj2 (proj2 (out_of_domain_input_is_assessed sample_disk None
                              sample_model negative_income)) W1 eq_refl)
      as (lti & er & cup & E & _ & E1 & _ & E2 & _ & E3 & _).
    rewrite E, E1, E2, E3. reflexivity.
  - destruct (proj2 (proj2 (out_of_domain_input_is_assessed sample_disk None
                              sample_model negative_loan)) W2 eq_refl)
      as (lti & er & cup & E & _ & E1 & _ & E2 & _ & E3 & _).
    rewrite E, E1, E2, E3. reflexivity.
Defined.

(** C6 as stated fails: a record with income -1, outside the declared
    domain, is one the sidebar delivers; it is not rejected: the frame is
    built with loanToIncome 0 and the run ends normally with the
    assessment on the page. *)
Lemma negative_income_is_assessed :
  in_declared_domain negative_income = false
  /\ widget_range negative_income = true
  /\ (exists r, input_data negative_income = Ok [r] /\ LoanToIncome r = PyInt 0)
  /\ fst (rerun sample_disk None negative_income true) = input_data negative_income
  /\ In (Metric "Default Probability" (Percent2 0.15))
        (page (snd (rerun sample_disk None negative_income true)))
  /\ In approve (page (snd (rerun sample_disk None negative_income true))).
Proof.
  split; [vm_compute; reflexivity | ].
  split; [vm_compute; reflexivity | ].
  split; [eexists; split; vm_compute; reflexivity | ].
  split; [vm_compute; reflexivity | ].
  split.
  - vm_compute. do 7 right. left. reflexivity.
  - vm_compute. do 15 right. left. reflexivity.
Qed.

(** C7: the tier is monotone in the probability, in the order
    Low < Moderate < High: for probabilities [p1 <= p2] in [0,1] the tier
    of [p1] is at most the tier of [p2]; any value below 1/5 is Low, any
    value of at least 1/5 and below 2/5 is Moderate; the float just below
    [0.2] is Low, [0.2] is Moderate, the float just below [0.4] is
    Moderate, [0.4] is High. *)
Theorem classify_monotone (p1 p2 : float) :
  is_probability p1 = true ->
  is_probability p2 = true ->
  PrimFloat.leb p1 p2 = true ->
  (exists t1 t2, risk_tier p1 = Some t1 /\ risk_tier p2 = Some t2
                 /\ tier_rank t1 <= tier_rank t2)
  /\ ((float_value p1 < 1 # 5)%Q -> risk_tier p1 = Some Low)
  /\ ((1 # 5 <= float_value p1)%Q -> (float_value p1 < 2 # 5)%Q ->
      risk_tier p1 = Some Moderate)
  /\ risk_tier (PrimFloat.next_down 0.2) = Some Low
  /\ risk_tier 0.2 = Some Moderate
  /\ risk_tier (PrimFloat.next_down 0.4) = Some Moderate
  /\ risk_tier 0.4 = Some High.
Proof.
  intros H1 H2 Hle.
  pose proof (is_probability_finite p1 H1) as F1.
  pose proof (is_probability_finite p2 H2) as F2.
  pose proof (leb_value p1 p2 H1 H2 Hle) as Hv.
  split; [ | split; [ | split; [ | split; [ | split; [ | split]]]]].
  - destruct (risk_tier_cases p1 F1) as [(A1 & ->) | [(A1 & B1 & ->) | (A1 & ->)]];
    destruct (risk_tier_cases p2 F2) as [(A2 & ->) | [(A2 & B2 & ->) | (A2 & ->)]];
    do 2 eexists; (split; [reflexivity | split; [reflexivity | ]]); cbn [tier_rank];
    try lia; exfalso.
    + apply (Qlt_not_le _ _ A2). apply Qle_trans with (1 := A1). exact Hv.
    + apply (Qlt_not_le _ _ A2). apply Qle_trans with (2 := Hv).
      apply Qle_trans with (2 := A1). discriminate.
    + apply (Qlt_not_le _ _ B2). apply Qle_trans with (1 := A1). exact Hv.
  - intros L. unfold risk_tier. rewrite (classify_low p1 F1 L). reflexivity.
  - intros G L. unfold risk_tier. rewrite (classify_moderate p1 F1 G L). reflexivity.
  - vm_compute. reflexivity.
  - vm_compute. reflexivity.
  - vm_compute. reflexivity.
  - vm_compute. reflexivity.
Qed.

Lemma classify_monotone_witness :
  is_probability 0.15 = true
  /\ is_probability 0.4 = true
  /\ PrimFloat.leb 0.15 0.4 = true
  /\ exists t1 t2, risk_tier 0.15 = Some t1 /\ risk_tier 0.4 = Some t2
                   /\ tier_rank t1 <= tier_rank t2.
Proof.
  split; [reflexivity | split; [reflexivity | split; [reflexivity | ]]].
  exact (proj1 (classify_monotone 0.15 0.4 eq_refl eq_refl eq_refl)).
Defined.

(** C8: on every assessment the probability that is shown in the metric,
    tiered on the risk card, drawn on the gauge and used for the
    recommendation is the second number of the first row that
    [predict_proba] returns for the one-row frame of the run, that is
    P(default) and not P(no default); the page carries no other metric and
    no other figure. *)
Theorem reported_probability_is_p_default
    (joblib_load : string -> result Model) (cache : option Model)
    (model : Model) (ui : sidebar) (frame : DataFrame)
    (p0 p1 : float) (more : list float) (rest : list (list float)) :
  serves joblib_load cache model ->
  input_data ui = Ok frame ->
  predict_proba model frame = Ok ((p0 :: p1 :: more) :: rest) ->
  length frame = 1%nat
  /\ exists s,
    rerun joblib_load cache ui true = (Ok frame, s)
    /\ In (Metric "Default Probability" (Percent2 p1)) (page s)
    /\ In (risk_card p1) (page s)
    /\ In (Pyplot (plot_gauge p1)) (page s)
    /\ In (recommendation p1) (page s)
    /\ (forall label value, In (Metric label value) (page s) ->
          value = Percent2 p1)
    /\ (forall fig, In (Pyplot fig) (page s) -> fig = plot_gauge p1).
Proof.
  intros Hm Hf Hp.
  split.
  { destruct (input_data_inv ui frame Hf) as (? & ? & ? & _ & _ & _ & ->).
    reflexivity. }
  destruct (rerun_assess joblib_load cache model ui frame p0 p1 more rest Hm Hf Hp)
    as (lti & er & _ & _ & R).
  eexists. split; [exact R | ]. cbn [page].
  split; [do 7 right; left; reflexivity | ].
  split; [do 8 right; left; reflexivity | ].
  split; [do 9 right; left; reflexivity | ].
  split; [do 15 right; left; reflexivity | ].
  split.
  - intros label value H. unfold risk_card, recommendation in H. cbn [In] in H.
    repeat (destruct H as [H | H]; try discriminate H); try contradiction.
    + injection H as _ <-. reflexivity.
    + destruct (PrimFloat.ltb p1 0.2); [discriminate H | ].
      destruct (PrimFloat.ltb p1 0.4); discriminate H.
  - intros fig H. unfold risk_card, recommendation in H. cbn [In] in H.
    repeat (destruct H as [H | H]; try discriminate H); try contradiction.
    + injection H as <-. reflexivity.
    + destruct (PrimFloat.ltb p1 0.2); [discriminate H | ].
      destruct (PrimFloat.ltb p1 0.4); discriminate H.
Qed.

Lemma reported_probability_is_p_default_witness :
  serves sample_disk None sample_model
  /\ input_data defaults = Ok (make_frame defaults (PyFloat 2.5)
                                 (PyFloat 1.7142857142857142)
                                 (PyFloat 33333.333333333336))
  /\ exists s,
       rerun sample_disk None defaults true
       = (Ok (make_frame defaults (PyFloat 2.5) (PyFloat 1.7142857142857142)
                (PyFloat 33333.333333333336)), s)
       /\ In (Metric "Default Probability" (Percent2 0.15)) (page s).
Proof.
  assert (Hf : input_data defaults
               = Ok (make_frame defaults (PyFloat 2.5) (PyFloat 1.7142857142857142)
                       (PyFloat 33333.333333333336)))
    by (vm_compute; reflexivity).
  split; [reflexivity | split; [exact Hf | ]].
  destruct (reported_probability_is_p_default sample_disk None sample_model
              defaults _ 0.85 0.15 [] [] eq_refl Hf eq_refl)
    as (_ & s & R & M & _).
  exists s. split; [exact R | exact M].
Defined.

(** C9: feature derivation is a function of the base record alone: two
    runs of the script on the same record, whatever each session holds and
    whether or not the button is pressed, build the same frame, which is
    the one [input_data] gives; its single row carries the base fields
    unchanged, so deriving again from the row's own base fields yields the
    identical frame. *)
Theorem derive_idempotent
    (joblib_load : string -> result Model) (cache1 cache2 : option Model)
    (ui : sidebar) (clicked1 clicked2 : bool) (frame1 frame2 : DataFrame) :
  fst (rerun joblib_load cache1 ui clicked1) = Ok frame1 ->
  fst (rerun joblib_load cache2 ui clicked2) = Ok frame2 ->
  frame1 = frame2
  /\ input_data ui = Ok frame1
  /\ exists r, frame1 = [r]
               /\ base_of r = ui
               /\ input_data (base_of r) = Ok frame1
               /\ loan_to_income ui = Ok (LoanToIncome r)
               /\ employment_ratio ui = Ok (EmploymentRatio r)
               /\ credit_utilization_proxy ui = Ok (CreditUtilizationProxy r).
Proof.
  intros H1 H2.
  apply rerun_frame in H1. apply rerun_frame in H2.
  split; [congruence | split; [exact H1 | ]].
  destruct (input_data_inv ui frame1 H1) as (lti & er & cup & E1 & E2 & E3 & ->).
  unfold make_frame. eexists. split; [reflexivity | ].
  match goal with
  | |- base_of ?r = _ /\ _ =>
      assert (B : base_of r = ui)
        by (apply (base_of_make_frame ui lti er cup); left; reflexivity)
  end.
  split; [exact B | ]. rewrite B.
  split; [exact H1 | ]. cbn [LoanToIncome EmploymentRatio CreditUtilizationProxy].
  auto.
Qed.

Lemma derive_idempotent_witness :
  fst (rerun sample_disk None defaults true)
  = Ok (make_frame defaults (PyFloat 2.5) (PyFloat 1.7142857142857142)
          (PyFloat 33333.333333333336))
  /\ fst (rerun sample_disk (Some sample_model) defaults false)
     = Ok (make_frame defaults (PyFloat 2.5) (PyFloat 1.7142857142857142)
             (PyFloat 33333.333333333336))
  /\ input_data defaults
     = Ok (make_frame defaults (PyFloat 2.5) (PyFloat 1.7142857142857142)
             (PyFloat 33333.333333333336)).
Proof.
  assert (H1 : fst (rerun sample_disk None defaults true)
               = Ok (make_frame defaults (PyFloat 2.5) (PyFloat 1.7142857142857142)
                       (PyFloat 33333.333333333336)))
    by (vm_compute; reflexivity).
  assert (H2 : fst (rerun sample_disk (Some sample_model) defaults false)
               = Ok (make_frame defaults (PyFloat 2.5) (PyFloat 1.7142857142857142)
                       (PyFloat 33333.333333333336)))
    by (vm_compute; reflexivity).
  split; [exact H1 | split; [exact H2 | ]].
  exact (proj1 (proj2 (derive_idempotent sample_disk None (Some sample_model)
                         defaults true false _ _ H1 H2))).
Defined.

(** C10: for every base record within the declared domains (income,
    loanAmount, monthsEmployed and numCreditLines of 0 or more, age of 18
    or more; each an int the widgets can hold, below 2^53) the three
    ratios are computed without error and none is negative: loanToIncome,
    employmentRatio and creditUtilizationProxy are all at least 0. *)
Theorem derived_ratios_nonneg (ui : sidebar) :
  0 <= income ui < 2 ^ 53 ->
  0 <= loan_amount ui < 2 ^ 53 ->
  0 <= months_employed ui < 2 ^ 53 ->
  18 <= age ui < 2 ^ 53 ->
  0 <= num_credit_lines ui < 2 ^ 53 - 1 ->
  exists lti er cup,
    loan_to_income ui = Ok lti
    /\ employment_ratio ui = Ok er
    /\ credit_utilization_proxy ui = Ok cup
    /\ number_nonneg lti = true
    /\ number_nonneg er = true
    /\ number_nonneg cup = true.
Proof.
  intros Hi Hl Hm Ha Hn.
  rewrite (employment_ratio_pos ui) by lia.
  rewrite (credit_utilization_proxy_eq ui) by lia.
  destruct (Z.eq_dec (income ui) 0) as [Z | NZ].
  - rewrite (loan_to_income_nonpos ui) by lia.
    do 3 eexists. do 3 (split; [reflexivity | ]). cbn [number_nonneg].
    split; [reflexivity | split]; apply truediv_nonneg; lia.
  - rewrite (loan_to_income_pos ui) by lia.
    do 3 eexists. do 3 (split; [reflexivity | ]). cbn [number_nonneg].
    split; [ | split]; apply truediv_nonneg; lia.
Qed.

Lemma derived_ratios_nonneg_witness :
  exists lti er cup,
    loan_to_income defaults = Ok lti
    /\ employment_ratio defaults = Ok er
    /\ credit_utilization_proxy defaults = Ok cup
    /\ number_nonneg lti = true
    /\ number_nonneg er = true
    /\ number_nonneg cup = true.
Proof.
  apply (derived_ratios_nonneg defaults);
    vm_compute; split; (discriminate || reflexivity).
Defined.

(** * Further properties of the script *)

(** ** The resource cache *)

Lemma keeps_cache_ret {A : Type} (a : A) : keeps_cache (ret a).
Proof. intros s. reflexivity. Qed.

Lemma keeps_cache_lift {A : Type} (r : result A) : keeps_cache (lift r).
Proof. intros s. reflexivity. Qed.

Lemma keeps_cache_emit (e : element) : keeps_cache (emit e).
Proof. intros s. reflexivity. Qed.

Lemma keeps_cache_bind {A B : Type} (m : script A) (k : A -> script B) :
  keeps_cache m -> (forall a, keeps_cache (k a)) -> keeps_cache (bind m k).
Proof.
  intros Hm Hk s. unfold bind. specialize (Hm s).
  destruct (m s) as [[a | e] s']; cbn [snd] in *.
  - rewrite Hk. exact Hm.
  - exact Hm.
Qed.

Ltac keeps_cache_steps :=
  repeat lazymatch goal with
    | |- keeps_cache (bind _ _) => apply keeps_cache_bind; [ | intros ? ]
    | |- keeps_cache (emit _) => apply keeps_cache_emit
    | |- keeps_cache (lift _) => apply keeps_cache_lift
    | |- keeps_cache (ret _) => apply keeps_cache_ret
    | |- keeps_cache (assess _ _ _ _ _) => unfold assess
    | |- keeps_cache (let '(_, _) := ?p in _) => destruct p
    | |- keeps_cache (if ?b then _ else _) => destruct b
    end.

(** The cache a run leaves: the model it found there, else the one it
    loaded, else nothing. *)
Lemma rerun_cache (joblib_load : string -> result Model)
    (cache : option Model) (ui : sidebar) (clicked : bool) :
  cached_model (snd (rerun joblib_load cache ui clicked))
  = match cache with
    | Some m => Some m
    | None =>
        match joblib_load "mortgage_default_model.pkl"%string with
        | Ok m => Some m
        | Raise _ => None
        end
    end.
Proof.
  unfold rerun, app.
  match goal with
  | |- context [bind (load_model _) ?k] => set (rest := k)
  end.
  assert (Hrest : forall m, keeps_cache (rest m)).
  { intros m. subst rest. cbv beta. keeps_cache_steps. }
  unfold bind at 1 2 3, emit, load_model. cbn [cached_model page snd].
  destruct cache as [m | ].
  - rewrite Hrest. reflexivity.
  - destruct (joblib_load _) as [m | e].
    + rewrite Hrest. reflexivity.
    + reflexivity.
Qed.

(** X1: once the session holds a model, a run never reads the model file:
    the whole outcome of the run (result, page and cache) is the same
    whatever [joblib.load] would return, and the cache still holds that
    model afterwards. *)
Theorem cached_model_is_reused (disk1 disk2 : string -> result Model)
    (model : Model) (ui : sidebar) (clicked : bool) :
  rerun disk1 (Some model) ui clicked = rerun disk2 (Some model) ui clicked
  /\ cached_model (snd (rerun disk1 (Some model) ui clicked)) = Some model.
Proof.
  split.
  - reflexivity.
  - apply rerun_cache.
Qed.

(** X2: a first run that finds the model file leaves the model in the
    cache whatever else happens on that run (also when the feature
    engineering or the classifier raises), so every later run of the
    session behaves as a run on that cached model, whatever the file
    system then holds. *)
Theorem first_run_fills_cache (joblib_load : string -> result Model)
    (model : Model) (ui : sidebar) (clicked : bool) :
  joblib_load "mortgage_default_model.pkl"%string = Ok model ->
  cached_model (snd (rerun joblib_load None ui clicked)) = Some model
  /\ forall (disk' : string -> result Model) (ui' : sidebar) (clicked' : bool),
       rerun disk'
         (cached_model (snd (rerun joblib_load None ui clicked))) ui' clicked'
       = rerun joblib_load (Some model) ui' clicked'.
Proof.
  intros Hload.
  assert (E : cached_model (snd (rerun joblib_load None ui clicked)) = Some model).
  { rewrite rerun_cache, Hload. reflexivity. }
  split; [exact E | ].
  intros disk' ui' clicked'. rewrite E. reflexivity.
Qed.

(** X3: when the cache is empty and [joblib.load] raises, the run ends
    with that exception right after the style sheet: the page holds the
    page configuration and the style sheet only, and the cache stays
    empty, so the failure is not cached. *)
Theorem load_failure_ends_run (joblib_load : string -> result Model)
    (e : exn) (ui : sidebar) (clicked : bool) :
  joblib_load "mortgage_default_model.pkl"%string = Raise e ->
  rerun joblib_load None ui clicked
  = (Raise e,
     {| cached_model := None;
        page := [ PageConfig "Mortgage Default Risk Dashboard" "wide";
                  Markdown "<style>premium fintech theme</style>" ] |}).
Proof.
  intros Hload. unfold rerun, app, bind, emit, load_model.
  cbn [cached_model page app]. rewrite Hload. reflexivity.
Qed.

(** ** Runs that do not reach an assessment *)


(** The run through the button when the classifier's answer cannot be
    indexed with [[0][1]], or the classifier raises. *)
Lemma rerun_no_probability (joblib_load : string -> result Model)
    (cache : option Model) (model : Model) (ui : sidebar) (frame : DataFrame)
    (e : exn) :
  serves joblib_load cache model ->
  input_data ui = Ok frame ->
  match predict_proba model frame with
  | Raise e' => e' = e
  | Ok probs =>
      match getitem probs 0 with
      | Raise e' => e' = e
      | Ok first_row => getitem first_row 1 = Raise e
      end
  end ->
  rerun joblib_load cache ui true
  = (Raise e, {| cached_model := Some model; page := preamble |}).
Proof.
  intros Hm Hf Hp.
  destruct (input_data_inv ui frame Hf) as (lti & er & cup & E1 & E2 & E3 & ->).
  unfold rerun, app, assess, bind, emit, lift, load_model, ret.
  cbn [cached_model page app].
  destruct cache as [m | ]; cbn [serves] in Hm; [subst m | rewrite Hm];
    rewrite E1, E2, E3;
    (destruct (predict_proba model _) as [probs | e']; [ | subst e'; reflexivity]);
    (destruct (getitem probs 0) as [first_row | e']; [ | subst e'; reflexivity]);
    rewrite Hp; reflexivity.
Qed.


(** X5: when [predict_proba] raises, the run ends with that exception
    and nothing of the assessment is on the page. *)
Theorem scoring_failure_propagates (joblib_load : string -> result Model)
    (cache : option Model) (model : Model) (ui : sidebar) (frame : DataFrame)
    (e : exn) :
  serves joblib_load cache model ->
  input_data ui = Ok frame ->
  predict_proba model frame = Raise e ->
  rerun joblib_load cache ui true
  = (Raise e, {| cached_model := Some model; page := preamble |}).
Proof.
  intros Hm Hf Hp.
  apply (rerun_no_probability joblib_load cache model ui frame e Hm Hf).
  rewrite Hp. reflexivity.
Qed.

(** X6: when [predict_proba] returns an array that has no first row or
    whose first row has fewer than two entries, indexing it with [[0][1]]
    raises [IndexError] and nothing of the assessment is on the page. *)
Theorem malformed_scores_raise_IndexError
    (joblib_load : string -> result Model) (cache : option Model)
    (model : Model) (ui : sidebar) (frame : DataFrame)
    (probs : list (list float)) :
  serves joblib_load cache model ->
  input_data ui = Ok frame ->
  predict_proba model frame = Ok probs ->
  (forall p0 p1 more rest, probs <> (p0 :: p1 :: more) :: rest) ->
  rerun joblib_load cache ui true
  = (Raise IndexError, {| cached_model := Some model; page := preamble |}).
Proof.
  intros Hm Hf Hp Hshape.
  apply (rerun_no_probability joblib_load cache model ui frame IndexError Hm Hf).
  rewrite Hp.
  destruct probs as [ | [ | p0 [ | p1 more]] rest]; cbn [getitem nth_error];
    try reflexivity.
  exfalso. apply (Hshape p0 p1 more rest). reflexivity.
Qed.

(** ** What an assessment shows *)

(** X7: the ratio table of an assessment shows the loan-to-income, DTI
    and employment values of the very row that was scored, as float64,
    and it is the only table on the page: the credit utilization proxy is
    scored but never shown.  When the income guard fires the scored row
    holds the int 0 and the table shows the float 0.0. *)
Theorem ratio_table_shows_frame_columns
    (joblib_load : string -> result Model) (cache : option Model)
    (model : Model) (ui : sidebar) (frame : DataFrame)
    (p0 p1 : float) (more : list float) (rest : list (list float)) :
  serves joblib_load cache model ->
  input_data ui = Ok frame ->
  predict_proba model frame = Ok ((p0 :: p1 :: more) :: rest) ->
  exists r,
    frame = [r]
    /\ In (Dataframe (ratio_table r))
          (page (snd (rerun joblib_load cache ui true)))
    /\ (forall table,
          In (Dataframe table) (page (snd (rerun joblib_load cache ui true))) ->
          table = ratio_table r)
    /\ (income ui <= 0 ->
        LoanToIncome r = PyInt 0
        /\ ratio_table r
           = [ ("Loan-to-Income", 0%float);
               ("DTI Ratio", dti_ratio ui);
               ("Employment Stability", to_float64 (EmploymentRatio r)) ]%string).
Proof.
  intros Hm Hf Hp.
  destruct (rerun_assess joblib_load cache model ui frame p0 p1 more rest Hm Hf Hp)
    as (lti & er & E1 & E2 & R).
  destruct (input_data_inv ui frame Hf) as (lti' & er' & cup & E1' & E2' & _ & ->).
  assert (lti' = lti) by congruence. assert (er' = er) by congruence. subst lti' er'.
  unfold make_frame. eexists. split; [reflexivity | ].
  rewrite R. cbn [snd page ratio_table LoanToIncome DTIRatio EmploymentRatio].
  split; [ | split].
  - do 12 right. left. reflexivity.
  - intros table H. unfold risk_card, recommendation in H. cbn [In] in H.
    repeat (destruct H as [H | H]; try discriminate H); try contradiction.
    + injection H as <-. reflexivity.
    + destruct (PrimFloat.ltb p1 0.2); [discriminate H | ].
      destruct (PrimFloat.ltb p1 0.4); discriminate H.
  - intros Hi. rewrite (loan_to_income_nonpos ui Hi) in E1.
    injection E1 as <-. split; reflexivity.
Qed.

(** X8: the page of an assessment depends on the classifier's answer
    through P(default) of the first row only: two answers that agree on
    that entry give the same result and the same page, whatever their
    P(no default), further columns and further rows. *)
Theorem page_depends_on_p_default_only
    (joblib_load : string -> result Model) (cache cache' : option Model)
    (model model' : Model) (ui : sidebar) (frame : DataFrame)
    (p0 p0' p1 : float) (more more' : list float)
    (rest rest' : list (list float)) :
  serves joblib_load cache model ->
  serves joblib_load cache' model' ->
  input_data ui = Ok frame ->
  predict_proba model frame = Ok ((p0 :: p1 :: more) :: rest) ->
  predict_proba model' frame = Ok ((p0' :: p1 :: more') :: rest') ->
  fst (rerun joblib_load cache ui true) = fst (rerun joblib_load cache' ui true)
  /\ page (snd (rerun joblib_load cache ui true))
     = page (snd (rerun joblib_load cache' ui true)).
Proof.
  intros Hm Hm' Hf Hp Hp'.
  destruct (rerun_assess joblib_load cache model ui frame p0 p1 more rest Hm Hf Hp)
    as (lti & er & E1 & E2 & R).
  destruct (rerun_assess joblib_load cache' model' ui frame p0' p1 more' rest'
              Hm' Hf Hp')
    as (lti' & er' & E1' & E2' & R').
  assert (lti' = lti) by congruence. assert (er' = er) by congruence. subst lti' er'.
  rewrite R, R'. split; reflexivity.
Qed.

(** ** Where the feature engineering can raise *)

(** X9: for ints below 2^53 in magnitude, all the widgets can hold, the
    two guarded ratios never raise; the unguarded proxy raises exactly
    when the number of credit lines is -1, and then with
    [ZeroDivisionError], which is the only exception the feature
    engineering lines can raise on such ints. *)
Theorem only_the_proxy_can_raise (ui : sidebar) :
  - 2 ^ 53 < income ui < 2 ^ 53 ->
  - 2 ^ 53 < loan_amount ui < 2 ^ 53 ->
  - 2 ^ 53 < months_employed ui < 2 ^ 53 ->
  - 2 ^ 53 < age ui < 2 ^ 53 ->
  - 2 ^ 53 < num_credit_lines ui + 1 < 2 ^ 53 ->
  (exists lti, loan_to_income ui = Ok lti)
  /\ (exists er, employment_ratio ui = Ok er)
  /\ (credit_utilization_proxy ui = Raise ZeroDivisionError
      <-> num_credit_lines ui = -1)
  /\ (input_data ui = Raise ZeroDivisionError <-> num_credit_lines ui = -1)
  /\ (forall e, input_data ui = Raise e -> e = ZeroDivisionError).
Proof.
  intros _ _ _ _ _.
  destruct (loan_to_income_Ok ui) as (lti & E1 & _).
  destruct (employment_ratio_Ok ui) as (er & E2 & _).
  assert (C : credit_utilization_proxy ui = Raise ZeroDivisionError
              <-> num_credit_lines ui = -1).
  { split.
    - intros H. destruct (Z.eq_dec (num_credit_lines ui + 1) 0) as [Z | NZ]; [lia | ].
      rewrite (credit_utilization_proxy_eq ui NZ) in H. discriminate H.
    - intros H. unfold credit_utilization_proxy, int_truediv. rewrite H. reflexivity. }
  split; [eauto | split; [eauto | split; [exact C | ]]].
  unfold input_data. rewrite E1, E2.
  destruct (credit_utilization_proxy ui) as [cup | e] eqn:E3.
  - split; [split | ].
    + discriminate.
    + intros H. apply C in H. discriminate H.
    + discriminate.
  - assert (e = ZeroDivisionError).
    { destruct (Z.eq_dec (num_credit_lines ui + 1) 0) as [Z | NZ].
      - assert (H : @Raise number e = Raise ZeroDivisionError) by (apply C; lia).
        injection H as ->. reflexivity.
      - rewrite (credit_utilization_proxy_eq ui NZ) in E3. discriminate E3. }
    subst e. split; [split | ].
    + intros _. apply C. reflexivity.
    + reflexivity.
    + intros e H. injection H as <-. reflexivity.
Qed.

Lemma only_the_proxy_can_raise_witness :
  (exists lti, loan_to_income negative_income = Ok lti)
  /\ (credit_utilization_proxy negative_income = Raise ZeroDivisionError
      <-> num_credit_lines negative_income = -1).
Proof.
  assert (H : (exists lti, loan_to_income negative_income = Ok lti)
              /\ (exists er, employment_ratio negative_income = Ok er)
              /\ (credit_utilization_proxy negative_income = Raise ZeroDivisionError
                  <-> num_credit_lines negative_income = -1)
              /\ (input_data negative_income = Raise ZeroDivisionError
                  <-> num_credit_lines negative_income = -1)
              /\ (forall e, input_data negative_income = Raise e
                            -> e = ZeroDivisionError)).
  { apply (only_the_proxy_can_raise negative_income); split; reflexivity. }
  destruct H as (H1 & _ & H3 & _).
  split; [exact H1 | exact H3].
Defined.

(** X10: for every combination of values the sidebar widgets allow the
    frame is built without exception; the age slider starts at 18, so the
    [else 0] branch of the employment ratio is never taken: the ratio is
    always the float quotient, and it is at least 0. *)
Theorem widget_values_always_derive (ui : sidebar) :
  widget_range ui = true ->
  exists lti,
    input_data ui
    = Ok (make_frame ui lti
            (PyFloat (PrimFloat.div (float_of_int (months_employed ui))
                                    (float_of_int (age ui))))
            (PyFloat (PrimFloat.div (float_of_int (loan_amount ui))
                                    (float_of_int (num_credit_lines ui + 1)))))
    /\ (income ui <= 0 -> lti = PyInt 0)
    /\ number_nonneg (PyFloat (PrimFloat.div (float_of_int (months_employed ui))
                                             (float_of_int (age ui)))) = true.
Proof.
  intros H. destruct (widget_range_ints ui H) as (Ha & Hi & Hl & Hm & Hn).
  destruct (loan_to_income_Ok ui) as (lti & E1 & G1).
  exists lti. unfold input_data.
  rewrite E1, (employment_ratio_pos ui) by lia.
  rewrite (credit_utilization_proxy_eq ui) by lia.
  split; [reflexivity | split; [exact G1 | ]].
  cbn [number_nonneg]. apply truediv_nonneg.
  - split; [lia | ]. apply Z.le_lt_trans with 480; [lia | reflexivity].
  - split; [lia | ]. apply Z.le_lt_trans with 70; [lia | reflexivity].
Qed.

(** ** Tiering outside the unit interval *)

Lemma risk_tier_by_ltb (p : float) :
  risk_tier p =
    if PrimFloat.ltb p 0.2 then Some Low
    else if PrimFloat.ltb p 0.4 then Some Moderate
    else Some High.
Proof.
  unfold risk_tier. rewrite classify_cases.
  destruct (PrimFloat.ltb p 0.2); [reflexivity | ].
  destruct (PrimFloat.ltb p 0.4); reflexivity.
Qed.

(** NaN and the infinities against the two thresholds. *)
Lemma risk_tier_not_finite (p : float) :
  SFfinite (Prim2SF p) = false ->
  risk_tier p
  = match Prim2SF p with
    | S754_infinity true => Some Low
    | _ => Some High
    end.
Proof.
  intros H. rewrite risk_tier_by_ltb, !ltb_spec, Prim2SF_0_2, Prim2SF_0_4.
  destruct (Prim2SF p) as [s | [ | ] | | s m e]; try discriminate H; reflexivity.
Qed.

(** X11: the tiering of every binary64 number, also outside [0,1]: Low
    exactly for minus infinity and finite values below 1/5 (negative ones
    included), Moderate exactly for finite values from 1/5 up to but
    excluding 2/5, High exactly for NaN, plus infinity and finite values
    of 2/5 or more (values above 1 included). *)
Theorem tiering_of_every_float (p : float) :
  (risk_tier p = Some Low
   <-> Prim2SF p = S754_infinity true
       \/ (SFfinite (Prim2SF p) = true /\ (float_value p < 1 # 5)%Q))
  /\ (risk_tier p = Some Moderate
      <-> SFfinite (Prim2SF p) = true
          /\ (1 # 5 <= float_value p)%Q /\ (float_value p < 2 # 5)%Q)
  /\ (risk_tier p = Some High
      <-> Prim2SF p = S754_nan
          \/ Prim2SF p = S754_infinity false
          \/ (SFfinite (Prim2SF p) = true /\ (2 # 5 <= float_value p)%Q)).
Proof.
  destruct (SFfinite (Prim2SF p)) eqn:F.
  - assert (L15 : (1 # 5 < 2 # 5)%Q) by reflexivity.
    destruct (risk_tier_cases p F) as [(A & ->) | [(A & B & ->) | (A & ->)]].
    + split; [ | split]; split; try discriminate; auto.
      * intros (_ & G & _). exfalso. exact (Qlt_not_le _ _ A G).
      * intros [E | [E | (_ & G)]].
        -- rewrite E in F. discriminate F.
        -- rewrite E in F. discriminate F.
        -- exfalso. apply (Qlt_not_le _ _ A).
           apply Qle_trans with (2 := G). apply Qlt_le_weak. exact L15.
    + split; [ | split]; split; try discriminate; auto.
      * intros [E | (_ & G)].
        -- rewrite E in F. discriminate F.
        -- exfalso. exact (Qlt_not_le _ _ G A).
      * intros [E | [E | (_ & G)]].
        -- rewrite E in F. discriminate F.
        -- rewrite E in F. discriminate F.
        -- exfalso. exact (Qlt_not_le _ _ B G).
    + split; [ | split]; split; try discriminate; auto.
      * intros [E | (_ & G)].
        -- rewrite E in F. discriminate F.
        -- exfalso. apply (Qlt_not_le _ _ G).
           apply Qle_trans with (2 := A). apply Qlt_le_weak. exact L15.
      * intros (_ & _ & G). exfalso. exact (Qlt_not_le _ _ G A).
  - rewrite (risk_tier_not_finite p F).
    destruct (Prim2SF p) as [s | [ | ] | | s m e]; try discriminate F;
      (split; [ | split]; split; try discriminate; auto);
      try (intros [E | (E & _)]; discriminate E);
      try (intros (E & _); discriminate E);
      try (intros [E | [E | (E & _)]]; discriminate E).
Qed.

Lemma tiering_of_every_float_witness :
  risk_tier PrimFloat.nan = Some High
  /\ risk_tier PrimFloat.neg_infinity = Some Low
  /\ risk_tier 1.5 = Some High
  /\ risk_tier (-0.5) = Some Low.
Proof.
  split; [ | split; [ | split]].
  - apply (proj2 (proj2 (tiering_of_every_float PrimFloat.nan))).
    left. reflexivity.
  - apply (proj1 (tiering_of_every_float PrimFloat.neg_infinity)).
    left. reflexivity.
  - apply (proj2 (proj2 (tiering_of_every_float 1.5))).
    right; right. split; [reflexivity | ]. vm_compute. discriminate.
  - apply (proj1 (tiering_of_every_float (-0.5))).
    right. split; [reflexivity | ]. vm_compute. reflexivity.
Defined.

(** X12: for every float the recommendation box (lines 208-213) goes with
    the tier of the risk card (lines 168-176): success box exactly for
    Low, warning box exactly for Moderate, error box exactly for High; no
    other box is ever shown. *)
Theorem recommendation_follows_tier (p : float) :
  (risk_tier p = Some Low <-> recommendation p = approve)
  /\ (risk_tier p = Some Moderate <-> recommendation p = caution)
  /\ (risk_tier p = Some High <-> recommendation p = reject)
  /\ (recommendation p = approve \/ recommendation p = caution
      \/ recommendation p = reject).
Proof.
  rewrite risk_tier_by_ltb. unfold recommendation, approve, caution, reject.
  destruct (PrimFloat.ltb p 0.2); [ | destruct (PrimFloat.ltb p 0.4)];
    (split; [ | split; [ | split]]); try (split; intros H; (reflexivity || discriminate H));
    auto.
Qed.


(** ** Zero and negative amounts *)

(** X13: a loan amount of 0 with a positive income gives a loan-to-income
    ratio and a credit utilization proxy of exactly 0.0. *)
Theorem zero_loan_gives_zero_ratios (ui : sidebar) :
  loan_amount ui = 0 ->
  0 < income ui < 2 ^ 53 ->
  0 <= num_credit_lines ui < 2 ^ 53 - 1 ->
  loan_to_income ui = Ok (PyFloat 0)
  /\ credit_utilization_proxy ui = Ok (PyFloat 0).
Proof.
  intros Hl Hi Hn. split.
  - rewrite (loan_to_income_pos ui) by lia. rewrite Hl.
    rewrite div_zero_by_positive; [reflexivity | ].
    destruct (income ui) as [ | p | p]; try lia.
    apply Prim2SF_float_of_pos. lia.
  - rewrite (credit_utilization_proxy_eq ui) by lia. rewrite Hl.
    rewrite div_zero_by_positive; [reflexivity | ].
    destruct (num_credit_lines ui + 1) as [ | p | p] eqn:E; try lia.
    apply Prim2SF_float_of_pos. lia.
Qed.

Lemma zero_loan_gives_zero_ratios_witness :
  loan_amount zero_loan = 0
  /\ loan_to_income zero_loan = Ok (PyFloat 0)
  /\ credit_utilization_proxy zero_loan = Ok (PyFloat 0).
Proof.
  split; [reflexivity | ].
  apply (zero_loan_gives_zero_ratios zero_loan eq_refl);
    vm_compute; split; (reflexivity || discriminate).
Defined.

Lemma opp_involutive (a : float) : PrimFloat.opp (PrimFloat.opp a) = a.
Proof.
  apply Prim2SF_inj. rewrite !opp_spec.
  destruct (Prim2SF a) as [s | s | | s m e]; cbn [SFopp];
    rewrite ?negb_involutive; reflexivity.
Qed.

Lemma float_of_int_opp (i : Z) :
  i <> 0 -> float_of_int (- i) = PrimFloat.opp (float_of_int i).
Proof.
  destruct i as [ | p | p]; intros H.
  - contradiction.
  - reflexivity.
  - cbn [Z.opp float_of_int]. rewrite opp_involutive. reflexivity.
Qed.

(** X14: with a positive income, negating a non-zero loan amount negates
    the loan-to-income ratio and the credit utilization proxy exactly:
    rounding is symmetric and nothing is clamped. *)
Theorem ratios_are_odd_in_loan_amount (ui ui' : sidebar) :
  loan_amount ui' = - loan_amount ui ->
  income ui' = income ui ->
  num_credit_lines ui' = num_credit_lines ui ->
  - 2 ^ 53 < loan_amount ui < 2 ^ 53 ->
  loan_amount ui <> 0 ->
  0 < income ui < 2 ^ 53 ->
  0 <= num_credit_lines ui < 2 ^ 53 - 1 ->
  exists q c,
    loan_to_income ui = Ok (PyFloat q)
    /\ loan_to_income ui' = Ok (PyFloat (PrimFloat.opp q))
    /\ credit_utilization_proxy ui = Ok (PyFloat c)
    /\ credit_utilization_proxy ui' = Ok (PyFloat (PrimFloat.opp c)).
Proof.
  intros Hl Hi Hn Hb Hnz Hpos Hncl.
  do 2 eexists.
  rewrite (loan_to_income_pos ui), (loan_to_income_pos ui') by lia.
  rewrite (credit_utilization_proxy_eq ui), (credit_utilization_proxy_eq ui') by lia.
  rewrite Hl, Hi, Hn, (float_of_int_opp _ Hnz), !div_opp_l.
  repeat split; reflexivity.
Qed.

Lemma leb_opp_nonneg (x : float) :
  PrimFloat.leb 0 x = true -> PrimFloat.leb (PrimFloat.opp x) 0 = true.
Proof.
  rewrite !leb_spec, opp_spec.
  replace (Prim2SF 0) with (S754_zero false) by (vm_compute; reflexivity).
  destruct (Prim2SF x) as [s | [ | ] | | [ | ] m e]; unfold SFleb;
    cbn [SFopp SFcompare negb]; intros H; try reflexivity; discriminate H.
Qed.

(** X15: a negative loan amount with a positive income is not clamped:
    the loan-to-income ratio and the credit utilization proxy are computed
    without exception and are at most 0. *)
Theorem negative_loan_gives_nonpositive_ratios (ui : sidebar) :
  - 2 ^ 53 < loan_amount ui < 0 ->
  0 < income ui < 2 ^ 53 ->
  0 <= num_credit_lines ui < 2 ^ 53 - 1 ->
  exists lti cup,
    loan_to_income ui = Ok lti
    /\ credit_utilization_proxy ui = Ok cup
    /\ number_nonpos lti = true
    /\ number_nonpos cup = true.
Proof.
  intros Hl Hi Hn.
  rewrite (loan_to_income_pos ui), (credit_utilization_proxy_eq ui) by lia.
  do 2 eexists. split; [reflexivity | split; [reflexivity | ]].
  cbn [number_nonpos].
  replace (loan_amount ui) with (- (- loan_amount ui)) by lia.
  rewrite (float_of_int_opp (- loan_amount ui)) by lia.
  rewrite !div_opp_l.
  split; apply leb_opp_nonneg, truediv_nonneg; lia.
Qed.

Lemma ratios_are_odd_in_loan_amount_witness :
  loan_to_income defaults = Ok (PyFloat 2.5)
  /\ loan_to_income negative_loan = Ok (PyFloat (-2.5))
  /\ credit_utilization_proxy negative_loan = Ok (PyFloat (-33333.333333333336)).
Proof.
  assert (B1 : - 2 ^ 53 < loan_amount defaults < 2 ^ 53) by (split; reflexivity).
  assert (B2 : loan_amount defaults <> 0) by discriminate.
  assert (B3 : 0 < income defaults < 2 ^ 53) by (split; reflexivity).
  assert (B4 : 0 <= num_credit_lines defaults < 2 ^ 53 - 1)
    by (split; [discriminate | reflexivity]).
  destruct (ratios_are_odd_in_loan_amount defaults negative_loan
              eq_refl eq_refl eq_refl B1 B2 B3 B4)
    as (q & c & E1 & E2 & E3 & E4).
  assert (Hq : q = 2.5%float).
  { assert (H : Ok (PyFloat q) = Ok (PyFloat 2.5)) by (rewrite <- E1; reflexivity).
    injection H as ->. reflexivity. }
  assert (Hc : c = 33333.333333333336%float).
  { assert (H : Ok (PyFloat c) = Ok (PyFloat 33333.333333333336))
      by (rewrite <- E3; reflexivity).
    injection H as ->. reflexivity. }
  subst q c. split; [exact E1 | split; [exact E2 | exact E4]].
Defined.

Lemma negative_loan_gives_nonpositive_ratios_witness :
  exists lti cup,
    loan_to_income negative_loan = Ok lti
    /\ credit_utilization_proxy negative_loan = Ok cup
    /\ number_nonpos lti = true
    /\ number_nonpos cup = true.
Proof.
  apply (negative_loan_gives_nonpositive_ratios negative_loan);
    split; (reflexivity || discriminate).
Defined.

(** ** The page only grows *)

Lemma appends_ret {A : Type} (a : A) : appends (ret a).
Proof. intros s. exists []. cbn [ret snd]. rewrite app_nil_r. reflexivity. Qed.

Lemma appends_lift {A : Type} (r : result A) : appends (lift r).
Proof. intros s. exists []. cbn [lift snd]. rewrite app_nil_r. reflexivity. Qed.

Lemma appends_emit (e : element) : appends (emit e).
Proof. intros s. exists [e]. reflexivity. Qed.

Lemma appends_bind {A B : Type} (m : script A) (k : A -> script B) :
  appends m -> (forall a, appends (k a)) -> appends (bind m k).
Proof.
  intros Hm Hk s. unfold bind. destruct (Hm s) as (t1 & E1).
  destruct (m s) as [[a | e] s']; cbn [snd] in *.
  - destruct (Hk a s') as (t2 & E2). exists (t1 ++ t2).
    rewrite E2, E1, app_assoc. reflexivity.
  - exists t1. exact E1.
Qed.

Lemma appends_load_model (joblib_load : string -> result Model) :
  appends (load_model joblib_load).
Proof.
  intros s. exists []. unfold load_model. rewrite app_nil_r.
  destruct (cached_model s); [reflexivity | ].
  destruct (joblib_load _); reflexivity.
Qed.

Ltac appends_steps :=
  repeat lazymatch goal with
    | |- appends (bind _ _) => apply appends_bind; [ | intros ? ]
    | |- appends (emit _) => apply appends_emit
    | |- appends (lift _) => apply appends_lift
    | |- appends (ret _) => apply appends_ret
    | |- appends (load_model _) => apply appends_load_model
    | |- appends (assess _ _ _ _ _) => unfold assess
    | |- appends (let '(_, _) := ?p in _) => destruct p
    | |- appends (if ?b then _ else _) => destruct b
    end.

(** X16: whatever a run does and however it ends, its page starts with
    the page configuration followed by the style sheet: the
    [set_page_config] call is always first. *)
Theorem page_starts_with_config (joblib_load : string -> result Model)
    (cache : option Model) (ui : sidebar) (clicked : bool) :
  exists tail,
    page (snd (rerun joblib_load cache ui clicked))
    = PageConfig "Mortgage Default Risk Dashboard" "wide"
      :: Markdown "<style>premium fintech theme</style>"
      :: tail.
Proof.
  unfold rerun, app.
  match goal with
  | |- context [bind (load_model _) ?k] => set (rest := bind (load_model joblib_load) k)
  end.
  assert (Hrest : appends rest).
  { subst rest. appends_steps. }
  destruct (Hrest {| cached_model := cache;
                     page := [PageConfig "Mortgage Default Risk Dashboard" "wide";
                              Markdown "<style>premium fintech theme</style>"] |})
    as (tail & E).
  exists tail. exact E.
Qed.

(** ** Sample runs *)

Lemma input_data_defaults :
  input_data defaults
  = Ok (make_frame defaults (PyFloat 2.5) (PyFloat 1.7142857142857142)
          (PyFloat 33333.333333333336)).
Proof. vm_compute. reflexivity. Defined.

Lemma first_run_fills_cache_witness :
  sample_disk "mortgage_default_model.pkl" = Ok sample_model
  /\ cached_model (snd (rerun sample_disk None defaults true)) = Some sample_model.
Proof.
  split; [reflexivity | ].
  exact (proj1 (first_run_fills_cache sample_disk sample_model defaults true eq_refl)).
Defined.

Lemma load_failure_ends_run_witness :
  broken_disk "mortgage_default_model.pkl" = Raise (HostError "FileNotFoundError")
  /\ fst (rerun broken_disk None defaults true)
     = Raise (HostError "FileNotFoundError").
Proof.
  split; [reflexivity | ].
  exact (f_equal fst (load_failure_ends_run broken_disk _ defaults true eq_refl)).
Defined.


Lemma scoring_failure_propagates_witness :
  fst (rerun sample_disk (Some failing_model) defaults true)
  = Raise (HostError "ValueError").
Proof.
  exact (f_equal fst
           (scoring_failure_propagates sample_disk (Some failing_model) failing_model
              defaults _ _ eq_refl input_data_defaults eq_refl)).
Defined.

Lemma malformed_scores_raise_IndexError_witness :
  fst (rerun sample_disk (Some empty_model) defaults true) = Raise IndexError.
Proof.
  refine (f_equal fst
            (malformed_scores_raise_IndexError sample_disk (Some empty_model)
               empty_model defaults _ [] eq_refl input_data_defaults eq_refl _)).
  intros p0 p1 more rest H. discriminate H.
Defined.

Lemma ratio_table_shows_frame_columns_witness :
  In (Dataframe [ ("Loan-to-Income", 0%float);
                  ("DTI Ratio", 0.35%float);
                  ("Employment Stability", 1.7142857142857142%float) ]%string)
     (page (snd (rerun sample_disk None negative_income true))).
Proof.
  assert (Hf : input_data negative_income
               = Ok (make_frame negative_income (PyInt 0)
                       (PyFloat 1.7142857142857142) (PyFloat 33333.333333333336)))
    by (vm_compute; reflexivity).
  destruct (ratio_table_shows_frame_columns sample_disk None sample_model
              negative_income _ 0.85 0.15 [] [] eq_refl Hf eq_refl)
    as (r & E & H & _).
  injection E as <-. exact H.
Defined.

Lemma page_depends_on_p_default_only_witness :
  page (snd (rerun sample_disk (Some sample_model) defaults true))
  = page (snd (rerun sample_disk (Some other_model) defaults true)).
Proof.
  exact (proj2 (page_depends_on_p_default_only sample_disk
                  (Some sample_model) (Some other_model) sample_model other_model
                  defaults _ 0.85 0.5 0.15 [] [0.35%float] [] [[0.1; 0.9]%float]
                  eq_refl eq_refl input_data_defaults eq_refl eq_refl)).
Defined.

Lemma widget_values_always_derive_witness :
  widget_range negative_income = true
  /\ exists lti,
       input_data negative_income
       = Ok (make_frame negative_income lti
               (PyFloat 1.7142857142857142) (PyFloat 33333.333333333336))
       /\ lti = PyInt 0.
Proof.
  assert (W : widget_range negative_income = true) by (vm_compute; reflexivity).
  split; [exact W | ].
  destruct (widget_values_always_derive negative_income W) as (lti & E & G & _).
  exists lti. split; [exact E | ].
  apply G. vm_compute. discriminate.
Defined.
